(** * monaco-ov: the language-client bridge ([LspClientCreator]) and the
      token-provider factory ([createTokenizationSupport]).

    A shallow embedding of the TypeScript sources.  The static class
    [LspClientCreator] becomes a record of the mutable things it reaches
    (the three editors, the shared [ContentManager] store, the two select
    boxes of the page, the connections, the workspace listeners and the
    Monaco registries) and every method becomes a computation in a small
    state-and-exception monad over that record.  A computation that throws
    keeps the state reached when it threw: JavaScript does not roll back. *)

From stdpp Require Import gmap strings list fin_maps.
From Stdlib Require Import ZArith Ascii.

Local Open Scope string_scope.
Local Open Scope Z_scope.
Local Open Scope list_scope.

(** ** Data model *)

(** An editor text model: [model.uri.toString()], the text and the
    language id. *)
Record TextModel := mkTextModel {
  uri : string;
  value : string;
  languageId : string
}.

(** [monaco.editor.IStandaloneCodeEditor], as far as the bridge uses it:
    [getModel()] returns the attached model or [null]. *)
Record Editor := mkEditor { getModel : option TextModel }.

(** [editor.getValue()]: the text of the attached model, the empty string
    when there is none. *)
Definition getValue (e : Editor) : string :=
  match getModel e with
  | Some m => value m
  | None => ""
  end.

(** Modelled from the spec: [ContentEnum] and [ContentManager] live in
    [../ContentManager], which is not part of the sources at hand.  The
    spec names the keys [Schema], [Code], [Culture], [Language] of "a small
    shared key-value store"; [setValue] stores under a key, [getValue]
    reads the stored value back (nothing stored reads as [undefined]). *)
Inductive ContentEnum := Schema | Code | Culture | Language.

Global Instance ContentEnum_eq_dec : EqDecision ContentEnum.
Proof. solve_decision. Defined.

Definition ContentEnum_to_nat (k : ContentEnum) : nat :=
  match k with Schema => 0 | Code => 1 | Culture => 2 | Language => 3 end%nat.

Definition ContentEnum_of_nat (n : nat) : option ContentEnum :=
  match n with
  | 0 => Some Schema | 1 => Some Code | 2 => Some Culture | 3 => Some Language
  | _ => None
  end%nat.

Global Program Instance ContentEnum_countable : Countable ContentEnum :=
  inj_countable ContentEnum_to_nat ContentEnum_of_nat _.
Next Obligation. by intros []. Qed.

(** [NotificationEnum] of the package [ov-language-server-types]: the six
    members the bridge mentions. *)
Inductive NotificationEnum :=
  | SemanticHighlighting
  | GeneratedCode
  | CommentKeywordChanged
  | SchemaChanged
  | CultureChanged
  | LanguageChanged.

Global Instance NotificationEnum_eq_dec : EqDecision NotificationEnum.
Proof. solve_decision. Defined.

(** The parameter objects of the three outbound notifications.  The culture
    and the language are read from the store at session start and may be
    [undefined] there, hence the [option]. *)
Inductive Params :=
  | SchemaParams (schema : string) (uri : string)
  | CultureParams (culture : option string) (uri : string)
  | LanguageParams (language : option string) (uri : string).

(** [ICodeNotification] of [ov-language-server-types]. *)
Record ICodeNotification := mkCodeNotification {
  language : string;
  implementation : string
}.

(** A [<select>] element: the values of its options, [selectedIndex]
    ([-1] when nothing is selected) and the [onchange] property.  The two
    closures that [setClickHandler] assigns are named by [OnChange]. *)
Inductive SelectBoxId := CultureSelectBox | LanguageSelectBox.

Inductive OnChange := OnCultureChange | OnLanguageChange.

Record HTMLSelectElement := mkSelect {
  options : list string;
  selectedIndex : Z;
  onchange : option OnChange
}.

(** [box.options[i]]: [undefined] outside the list. *)
Definition option_at (box : HTMLSelectElement) (i : Z) : option string :=
  if 0 <=? i then options box !! Z.to_nat i else None.

(** A compiled matcher, [new RegExp(source, flags)].  The host's check of
    the pattern syntax is outside the model: patterns are the regular
    expressions the server produced. *)
Record RegExp := mkRegExp { source : string; flags : string }.

(** Modelled from the spec: [TokenClass] is an enum of
    [../monaco-configuration/enums], not part of the sources at hand; the
    spec only says "class: enum", so a class is its numeric tag. *)
Definition TokenClass : Type := nat.

(** Modelled from the spec: [OvlTokenProvider] (in [./OvlTokenProvider],
    not part of the sources at hand) is built from the compiled classifier
    table and is "the editor's new token classifier"; the model keeps the
    table it was built from. *)
Inductive TokensProvider :=
  | OvlTokenProvider (classifiers : list (RegExp * TokenClass)).

Definition classifierTable (p : TokensProvider) : list (RegExp * TokenClass) :=
  match p with OvlTokenProvider t => t end.

(** [monaco.languages.LanguageConfiguration]: the comment rule and the
    other top-level entries the bridge never mentions. *)
Record CommentRule := mkCommentRule {
  lineComment : option string;
  blockComment : option (string * string)
}.

Record LanguageConfiguration := mkLanguageConfiguration {
  comments : option CommentRule;
  brackets : option (list (string * string));
  wordPattern : option RegExp;
  autoClosingPairs : option (list (string * string));
  surroundingPairs : option (list (string * string))
}.

(** One connection to the language server: the notification methods that
    have a listener, and whether the transport has closed. *)
Record Connection := mkConnection {
  listeners : list NotificationEnum;
  closed : bool
}.

(** What the bridge does to the outside, in the order it does it. *)
Inductive Event :=
  | EvSendNotification (conn : nat) (method : NotificationEnum) (params : Params)
  | EvSetValue (key : ContentEnum) (text : string)
  | EvOnNotification (conn : nat) (method : NotificationEnum)
  | EvOnDidChangeTextDocument
  | EvSetOnChange (box : SelectBoxId).

(** The static fields of [LspClientCreator] and the globals they reach. *)
Record State := mkState {
  ovEditor : Editor;
  schemaEditor : Editor;
  outputEditor : Editor;
  content : gmap ContentEnum string;
  cultureSelectBox : option HTMLSelectElement;
  languageSelectBox : option HTMLSelectElement;
  connections : list Connection;
  currentConnection : nat;
  docChangeListeners : nat;
  tokensProviders : gmap string TokensProvider;
  languageConfigurations : gmap string LanguageConfiguration;
  trace : list Event
}.

(** Field updates.  Each takes the record apart once and rebuilds it. *)
Definition set_outputEditor (x : Editor) (s : State) : State :=
  match s with
  | mkState ov se _ ct cb lb cs cc dl tp lc tr =>
      mkState ov se x ct cb lb cs cc dl tp lc tr
  end.

Definition set_content (x : gmap ContentEnum string) (s : State) : State :=
  match s with
  | mkState ov se oe _ cb lb cs cc dl tp lc tr =>
      mkState ov se oe x cb lb cs cc dl tp lc tr
  end.

Definition set_cultureSelectBox (x : option HTMLSelectElement) (s : State) : State :=
  match s with
  | mkState ov se oe ct _ lb cs cc dl tp lc tr =>
      mkState ov se oe ct x lb cs cc dl tp lc tr
  end.

Definition set_languageSelectBox (x : option HTMLSelectElement) (s : State) : State :=
  match s with
  | mkState ov se oe ct cb _ cs cc dl tp lc tr =>
      mkState ov se oe ct cb x cs cc dl tp lc tr
  end.

Definition set_connections (x : list Connection) (s : State) : State :=
  match s with
  | mkState ov se oe ct cb lb _ cc dl tp lc tr =>
      mkState ov se oe ct cb lb x cc dl tp lc tr
  end.

Definition set_currentConnection (x : nat) (s : State) : State :=
  match s with
  | mkState ov se oe ct cb lb cs _ dl tp lc tr =>
      mkState ov se oe ct cb lb cs x dl tp lc tr
  end.

Definition set_docChangeListeners (x : nat) (s : State) : State :=
  match s with
  | mkState ov se oe ct cb lb cs cc _ tp lc tr =>
      mkState ov se oe ct cb lb cs cc x tp lc tr
  end.

Definition set_tokensProviders (x : gmap string TokensProvider) (s : State) : State :=
  match s with
  | mkState ov se oe ct cb lb cs cc dl _ lc tr =>
      mkState ov se oe ct cb lb cs cc dl x lc tr
  end.

Definition set_languageConfigurations (x : gmap string LanguageConfiguration) (s : State) : State :=
  match s with
  | mkState ov se oe ct cb lb cs cc dl tp _ tr =>
      mkState ov se oe ct cb lb cs cc dl tp x tr
  end.

(** Appending to the trace. *)
Definition log (ev : Event) (s : State) : State :=
  match s with
  | mkState ov se oe ct cb lb cs cc dl tp lc tr =>
      mkState ov se oe ct cb lb cs cc dl tp lc (tr ++ [ev])
  end.

(** ** The monad: state and exceptions *)

Inductive Error := TypeError | SyntaxError.

Inductive Completion (A : Type) :=
  | Normal (a : A)
  | Throw (e : Error).
Arguments Normal {A} a.
Arguments Throw {A} e.

Definition M (A : Type) : Type := State → Completion A * State.

Definition ret {A} (a : A) : M A := λ s, (Normal a, s).

Definition bind {A B} (k : A → M B) (m : M A) : M B :=
  λ s, match m s with
       | (Normal a, s') => k a s'
       | (Throw e, s') => (Throw e, s')
       end.

Global Instance M_ret : MRet M := @ret.
Global Instance M_bind : MBind M := @bind.

Definition throw {A} (e : Error) : M A := λ s, (Throw e, s).
Definition gets {A} (f : State → A) : M A := λ s, (Normal (f s), s).
Definition modify (f : State → State) : M unit := λ s, (Normal tt, f s).

(** [x!.f] and [x.f] on a nullable [x]: a [TypeError] on [null]. *)
Definition nonNull {A} (x : option A) : M A :=
  match x with
  | Some a => mret a
  | None => throw TypeError
  end.

(** ** The host *)

(** The outcome of an [async] function whose body awaits nothing: the
    promise it returns is already settled. *)
Inductive Promise (A : Type) :=
  | Resolved (a : A)
  | Rejected (e : Error).
Arguments Resolved {A} a.
Arguments Rejected {A} e.

(** Lower-casing of the ASCII letters, and the strings made of ASCII
    characters only. *)
Definition lower_ascii (c : Ascii.ascii) : Ascii.ascii :=
  let n := Ascii.N_of_ascii c in
  if ((65 <=? n) && (n <=? 90))%N then Ascii.ascii_of_N (n + 32) else c.

Fixpoint asciiLower (s : string) : string :=
  match s with
  | EmptyString => EmptyString
  | String c rest => String (lower_ascii c) (asciiLower rest)
  end.

Fixpoint isAscii (s : string) : bool :=
  match s with
  | EmptyString => true
  | String c rest => (Ascii.N_of_ascii c <? 128)%N && isAscii rest
  end.

(** What the bridge takes from the JavaScript host and from the editor.
    - [JSON.parse]: the bridge casts its result to the type it expects, so
      the host is a decoder per payload type; [None] is a [SyntaxError].
      The semantic-highlighting payload is decoded as the (pattern, class)
      pairs that [createTokenizationSupport] consumes.
    - [RegExp_valid]: whether [new RegExp(pattern, "g")] accepts the
      pattern; it throws a [SyntaxError] otherwise.
    - [toLowerCase]: [String.prototype.toLowerCase], which lower-cases
      every cased letter; on a string of ASCII characters it is
      [asciiLower].
    - [selectLanguage]: the language id that
      [monaco.editor.setModelLanguage] gives a model when asked for a
      language id: that id when the editor knows it, another one (the
      editor's plain-text language) when it does not. *)
Class Host := {
  JSON_parse_classifiers : string → option (list (string * TokenClass));
  JSON_parse_code : string → option ICodeNotification;
  RegExp_valid : string → bool;
  toLowerCase : string → string;
  toLowerCase_on_ascii : ∀ s, isAscii s = true → toLowerCase s = asciiLower s;
  selectLanguage : string → string
}.

Definition parsed {A} (x : option A) : M A :=
  match x with
  | Some a => mret a
  | None => throw SyntaxError
  end.

(** ** Token-provider factory ([TokensProvider.ts]) *)

(** [!!element[0]] on a string: true unless the string is empty. *)
Definition truthy (s : string) : bool := negb (String.eqb s "").

Section TokensProviderFactory.
Context `{Host}.

(** [new RegExp(pattern, flags)]; [None] is the [SyntaxError] thrown for a
    pattern the host does not accept. *)
Definition RegExp_new (pattern flags : string) : option RegExp :=
  if RegExp_valid pattern then Some (mkRegExp pattern flags) else None.

(** [getRegEx]: the [forEach] loop pushes onto [returnList]; an exception
    of the constructor ends the loop and the function ([None]). *)
Definition getRegEx_step {C} (returnList : option (list (RegExp * C)))
    (element : string * C) : option (list (RegExp * C)) :=
  match returnList with
  | Some acc =>
      if truthy (fst element)
      then match RegExp_new (fst element) "g" with
           | Some r => Some (acc ++ [(r, snd element)])
           | None => None
           end
      else Some acc
  | None => None
  end.

Definition getRegEx {C} (stringList : list (string * C))
    : option (list (RegExp * C)) :=
  fold_left getRegEx_step stringList (Some []).

(** [createTokenizationSupport] is [async]: it never throws to its
    caller; the promise it returns is resolved with the provider, or
    rejected when [getRegEx] threw. *)
Definition createTokenizationSupport (classifiers : list (string * TokenClass))
    : Promise TokensProvider :=
  match getRegEx classifiers with
  | Some table => Resolved (OvlTokenProvider table)
  | None => Rejected SyntaxError
  end.

(** The entries on which the constructor does not throw. *)
Definition compiles {C} (e : string * C) : Prop :=
  e.1 ≠ "" → RegExp_valid e.1 = true.

End TokensProviderFactory.

(** The table the spec words describe: the non-empty patterns, compiled,
    in payload order. *)
Definition compiledNonEmpty {C} (entries : list (string * C)) : list (RegExp * C) :=
  map (λ e, (mkRegExp (fst e) "g", snd e))
      (filter (λ e, fst e ≠ "") entries).

(** ** The language-client bridge ([LspClientCreator]) *)

(** *** Primitives of the collaborators *)

(** [this.currentConnection.sendNotification(method, params)]: the send is
    recorded on the current connection; what the transport then does with
    it is its own business. *)
Definition sendNotification (method : NotificationEnum) (p : Params) : M unit :=
  modify (λ s, log (EvSendNotification (currentConnection s) method p) s).

(** A connection keeps one handler per method. *)
Definition add_listener (method : NotificationEnum) (c : Connection) : Connection :=
  if bool_decide (method ∈ listeners c) then c
  else mkConnection (listeners c ++ [method]) (closed c).

(** [this.currentConnection.onNotification(method, handler)]. *)
Definition onNotification (method : NotificationEnum) : M unit :=
  modify (λ s,
    log (EvOnNotification (currentConnection s) method)
      (set_connections
         (alter (add_listener method) (currentConnection s) (connections s)) s)).

(** Modelled from the spec: [ContentManager.setValue] and
    [ContentManager.getValue] (in [../ContentManager], not part of the
    sources at hand) write and read the shared key-value store. *)
Definition ContentManager_setValue (key : ContentEnum) (text : string) : M unit :=
  modify (λ s, log (EvSetValue key text) (set_content (<[key := text]> (content s)) s)).

Definition ContentManager_getValue (key : ContentEnum) : M (option string) :=
  gets (λ s, content s !! key).

(** [monaco.languages.setTokensProvider(languageId, provider)] with a
    promise of a provider: when the promise is resolved, the new provider
    takes the place of the one installed before; when it is rejected,
    nothing is installed and the call itself does not throw. *)
Definition setTokensProvider (languageId : string) (p : Promise TokensProvider)
    : M unit :=
  match p with
  | Resolved provider =>
      modify (λ s, set_tokensProviders (<[languageId := provider]> (tokensProviders s)) s)
  | Rejected _ => mret tt
  end.

(** [a || b] on possibly-undefined entries. *)
Definition orElse {A} (a b : option A) : option A :=
  match a with
  | Some _ => a
  | None => b
  end.

(** [monaco.languages.setLanguageConfiguration(languageId, configuration)]
    belongs to the editor: its registry lays the new configuration over
    the one registered before, top-level entry by top-level entry (an entry
    the new configuration leaves out keeps its previous value). *)
Definition mergeConf (prev : option LanguageConfiguration)
    (current : LanguageConfiguration) : LanguageConfiguration :=
  match prev with
  | Some p =>
      mkLanguageConfiguration
        (orElse (comments current) (comments p))
        (orElse (brackets current) (brackets p))
        (orElse (wordPattern current) (wordPattern p))
        (orElse (autoClosingPairs current) (autoClosingPairs p))
        (orElse (surroundingPairs current) (surroundingPairs p))
  | None => current
  end.

Definition setLanguageConfiguration (languageId : string)
    (configuration : LanguageConfiguration) : M unit :=
  modify (λ s,
    set_languageConfigurations
      (<[languageId := mergeConf (languageConfigurations s !! languageId) configuration]>
         (languageConfigurations s)) s).

(** *** Outbound senders *)

Definition sendSchemaChangedNotification : M unit :=
  schemaValue ← gets (λ s, getValue (schemaEditor s));
  model ← gets (λ s, getModel (ovEditor s));
  m ← nonNull model;
  let textdocumentUri := uri m in
  sendNotification SchemaChanged (SchemaParams schemaValue textdocumentUri).

(** [element.value == stored]: a string equals only the same string. *)
Definition looseEq (element : string) (stored : option string) : bool :=
  match stored with
  | Some v => String.eqb element v
  | None => false
  end.

(** The [for] loop of [sendLanguageConfiguration]: the index of the first
    option whose value is the stored one, where the loop [break]s. *)
Fixpoint firstMatch (opts : list string) (stored : option string) (index : Z)
    : option Z :=
  match opts with
  | [] => None
  | element :: rest =>
      if looseEq element stored then Some index
      else firstMatch rest stored (index + 1)
  end.

(** [box.options[index].selected = true] on a single-choice select moves
    [selectedIndex] there. *)
Definition selectStored (box : HTMLSelectElement) (stored : option string)
    : HTMLSelectElement :=
  match firstMatch (options box) stored 0 with
  | Some index => mkSelect (options box) index (onchange box)
  | None => box
  end.

Definition sendLanguageConfiguration : M unit :=
  model ← gets (λ s, getModel (ovEditor s));
  m ← nonNull model;
  let textdocumentUri := uri m in
  cultureBox ← gets cultureSelectBox;
  match cultureBox with
  | Some box =>
      culture ← ContentManager_getValue Culture;
      modify (set_cultureSelectBox (Some (selectStored box culture)));;
      sendNotification CultureChanged (CultureParams culture textdocumentUri)
  | None => mret tt
  end;;
  languageBox ← gets languageSelectBox;
  match languageBox with
  | Some box =>
      language ← ContentManager_getValue Language;
      modify (set_languageSelectBox (Some (selectStored box language)));;
      sendNotification LanguageChanged (LanguageParams language textdocumentUri)
  | None => mret tt
  end.

(** *** Document-change listener *)

(** The event of [workspace.onDidChangeTextDocument]: the changed document
    ([languageId], [getText()]). *)
Record TextDocumentChangeEvent := mkChangeEvent { textDocument : TextModel }.

Definition getText (d : TextModel) : string := value d.

(** The arrow function that [addDidChangeTextDocumentListener] registers. *)
Definition onDidChangeTextDocument_listener (event : TextDocumentChangeEvent)
    : M unit :=
  if String.eqb (languageId (textDocument event)) "yaml" then
    sendSchemaChangedNotification;;
    ContentManager_setValue Schema (getText (textDocument event))
  else if String.eqb (languageId (textDocument event)) "ov" then
    ContentManager_setValue Code (getText (textDocument event))
  else mret tt.

(** [this.monacoServices.workspace.onDidChangeTextDocument(listener)]: one
    more listener on the workspace that [MonacoServices.install] created
    once, in [createLspClient]; the disposable it returns is dropped. *)
Definition addDidChangeTextDocumentListener : M unit :=
  modify (λ s,
    log EvOnDidChangeTextDocument
      (set_docChangeListeners (S (docChangeListeners s)) s)).

(** [try { listener(event) } catch (e) { console.error(e) }]: how an
    event emitter calls a listener. *)
Definition caught (m : M unit) : M unit := λ s, (Normal tt, snd (m s)).

Fixpoint repeatM (n : nat) (m : M unit) : M unit :=
  match n with
  | O => mret tt
  | S k => caught m;; repeatM k m
  end.

(** The workspace firing its document-change event: every registered
    listener runs, in registration order; a listener that throws does not
    stop the others, nor the code that caused the event. *)
Definition fireDidChangeTextDocument (event : TextDocumentChangeEvent) : M unit :=
  n ← gets docChangeListeners;
  repeatM n (onDidChangeTextDocument_listener event).

(** *** Inbound handlers *)

Section Handlers.
Context `{Host}.

Definition semanticHighlighting_handler (params : string) : M unit :=
  jsonParameter ← parsed (JSON_parse_classifiers params);
  setTokensProvider "ov" (createTokenizationSupport jsonParameter).

(** [currentModel.setValue(value)] on the output editor's model [m]: the
    text is replaced, and the editor tells the workspace, which fires its
    document-change event for the output document (new text, the language
    id it has at that moment) to the listeners the bridge registered. *)
Definition model_setValue (m : TextModel) (value : string) : M unit :=
  let changed := mkTextModel (uri m) value (languageId m) in
  modify (set_outputEditor (mkEditor (Some changed)));;
  fireDidChangeTextDocument (mkChangeEvent changed).

(** [monaco.editor.setModelLanguage(currentModel, languageId)] on the
    output editor's model. *)
Definition setModelLanguage (languageId : string) : M unit :=
  currentModel ← gets (λ s, getModel (outputEditor s));
  match currentModel with
  | Some m =>
      modify (set_outputEditor
                (mkEditor (Some (mkTextModel (uri m) (value m)
                                   (selectLanguage languageId)))))
  | None => mret tt
  end.

Definition generatedCode_handler (params : string) : M unit :=
  paramJson ← parsed (JSON_parse_code params);
  let language := toLowerCase (language paramJson) in
  let value := implementation paramJson in
  currentModel ← gets (λ s, getModel (outputEditor s));
  match currentModel with
  | Some m =>
      model_setValue m value;;
      setModelLanguage language
  | None => mret tt
  end.

Definition commentKeywordChanged_handler (params : string) : M unit :=
  setLanguageConfiguration "ov"
    (mkLanguageConfiguration (Some (mkCommentRule (Some params) None))
       None None None None).

Definition addSemanticHighlightingNotificationListener : M unit :=
  onNotification SemanticHighlighting.

Definition addGeneratedCodeNotificationListener : M unit :=
  onNotification GeneratedCode.

Definition addAliasesChangesListener : M unit :=
  onNotification CommentKeywordChanged.

(** The handler a connection runs for a method it has a listener for. *)
Definition handler_of (method : NotificationEnum) (params : string) : M unit :=
  match method with
  | SemanticHighlighting => semanticHighlighting_handler params
  | GeneratedCode => generatedCode_handler params
  | CommentKeywordChanged => commentKeywordChanged_handler params
  | _ => mret tt
  end.

(** A notification arriving on connection [conn]: it is processed only by
    a listener registered on that connection, and a closed connection
    delivers nothing. *)
Definition deliver (conn : nat) (method : NotificationEnum) (params : string)
    : M unit :=
  c ← gets (λ s, connections s !! conn);
  match c with
  | Some c =>
      if closed c then mret tt
      else if bool_decide (method ∈ listeners c) then handler_of method params
      else mret tt
  | None => mret tt
  end.

End Handlers.

(** *** Select-box handlers *)

(** A DOM event object; the handlers only test it against [null]. *)
Definition DomEvent : Type := unit.

(** The closure assigned to [cultureSelectBox.onchange]; [box] is the
    element it closed over. *)
Definition cultureSelectBox_onchange (box : HTMLSelectElement)
    (e : option DomEvent) : M unit :=
  match e with
  | Some _ =>
      selectedCulture ← nonNull (option_at box (selectedIndex box));
      model ← gets (λ s, getModel (ovEditor s));
      m ← nonNull model;
      let textdocumentUri := uri m in
      ContentManager_setValue Culture selectedCulture;;
      sendNotification CultureChanged
        (CultureParams (Some selectedCulture) textdocumentUri)
  | None => mret tt
  end.

Definition languageSelectBox_onchange (box : HTMLSelectElement)
    (e : option DomEvent) : M unit :=
  match e with
  | Some _ =>
      selectedLanguage ← nonNull (option_at box (selectedIndex box));
      model ← gets (λ s, getModel (ovEditor s));
      m ← nonNull model;
      let textdocumentUri := uri m in
      ContentManager_setValue Language selectedLanguage;;
      sendNotification LanguageChanged
        (LanguageParams (Some selectedLanguage) textdocumentUri)
  | None => mret tt
  end.

Definition with_onchange (h : OnChange) (box : HTMLSelectElement) : HTMLSelectElement :=
  mkSelect (options box) (selectedIndex box) (Some h).

Definition setClickHandler : M unit :=
  cultureBox ← gets cultureSelectBox;
  match cultureBox with
  | Some box =>
      modify (λ s, log (EvSetOnChange CultureSelectBox)
                     (set_cultureSelectBox (Some (with_onchange OnCultureChange box)) s))
  | None => mret tt
  end;;
  languageBox ← gets languageSelectBox;
  match languageBox with
  | Some box =>
      modify (λ s, log (EvSetOnChange LanguageSelectBox)
                     (set_languageSelectBox (Some (with_onchange OnLanguageChange box)) s))
  | None => mret tt
  end.

Definition getElementById (id : SelectBoxId) (s : State) : option HTMLSelectElement :=
  match id with
  | CultureSelectBox => cultureSelectBox s
  | LanguageSelectBox => languageSelectBox s
  end.

(** The page firing [change] on a select box: its [onchange], if any. *)
Definition fireChange (id : SelectBoxId) (e : option DomEvent) : M unit :=
  box ← gets (getElementById id);
  match box with
  | Some b =>
      match onchange b with
      | Some OnCultureChange => cultureSelectBox_onchange b e
      | Some OnLanguageChange => languageSelectBox_onchange b e
      | None => mret tt
      end
  | None => mret tt
  end.

(** *** Session lifecycle *)

(** [listen] calls [onConnection] with a new connection each time the
    socket opens. *)
Definition newConnection : M nat :=
  conn ← gets (λ s, length (connections s));
  modify (λ s, set_connections (connections s ++ [mkConnection [] false]) s);;
  mret conn.

(** [connectionProvider.get], which the client calls when it starts. *)
Definition connectionProvider_get (connection : nat) : M unit :=
  modify (set_currentConnection connection);;
  sendSchemaChangedNotification;;
  sendLanguageConfiguration;;
  addSemanticHighlightingNotificationListener;;
  addGeneratedCodeNotificationListener;;
  addDidChangeTextDocumentListener;;
  addAliasesChangesListener;;
  setClickHandler.

(** The two halves of [connectionProvider_get]. *)
Definition get_sends (connection : nat) : M unit :=
  modify (set_currentConnection connection);;
  sendSchemaChangedNotification;;
  sendLanguageConfiguration.

Definition get_registrations : M unit :=
  addSemanticHighlightingNotificationListener;;
  addGeneratedCodeNotificationListener;;
  addDidChangeTextDocumentListener;;
  addAliasesChangesListener;;
  setClickHandler.

(** [onConnection]: create the client for the connection and start it. *)
Definition onConnection : M nat :=
  connection ← newConnection;
  connectionProvider_get connection;;
  mret connection.

Definition close_connection (c : Connection) : Connection :=
  mkConnection (listeners c) true.

(** The transport of [connection] closing: [connection.onClose] runs
    [disposable.dispose()], which stops the client of that connection. *)
Definition connection_onClose (connection : nat) : M unit :=
  modify (λ s, set_connections (alter close_connection connection (connections s)) s).

(** *** Transport URL *)

Record Location := mkLocation { protocol : string; pathname : string }.

(** [const PORT = process.env.PORT || 3010], as the template literal
    prints it. *)
Definition PORT (env_PORT : option string) : string :=
  match env_PORT with
  | Some p => if truthy p then p else "3010"
  | None => "3010"
  end.

(** One slash for every run of slashes. *)
Fixpoint collapseSlashes (s : string) : string :=
  match s with
  | EmptyString => EmptyString
  | String c rest =>
      match rest with
      | String c' _ =>
          if (Ascii.eqb c "/"%char && Ascii.eqb c' "/"%char)%bool
          then collapseSlashes rest
          else String c (collapseSlashes rest)
      | EmptyString => String c EmptyString
      end
  end.

(** The text before and after the first ["://"]. *)
Fixpoint splitScheme (s : string) : option (string * string) :=
  match s with
  | EmptyString => None
  | String ":" (String "/" (String "/" rest)) => Some (EmptyString, rest)
  | String c rest =>
      match splitScheme rest with
      | Some (scheme, r) => Some (String c scheme, r)
      | None => None
      end
  end.

(** Modelled from the spec: [normalizeUrl] is the package [normalize-url],
    not part of the sources at hand.  The spec says of it "normalized
    (duplicate slashes collapsed)": the scheme separator stays, every run
    of slashes after it becomes one slash. *)
Definition normalizeUrl (url : string) : string :=
  match splitScheme url with
  | Some (scheme, rest) => scheme +:+ "://" +:+ collapseSlashes rest
  | None => collapseSlashes url
  end.

Definition createUrl (env_PORT : option string) (location : Location)
    (path : string) : string :=
  let protocol := if String.eqb (protocol location) "https:" then "wss" else "ws" in
  normalizeUrl
    (protocol +:+ "://localhost:" +:+ PORT env_PORT +:+ pathname location +:+ path).

(** ** Observations and scenarios *)

(** The events a computation appends to the trace when run from [s]. *)
Definition events_of {A} (m : M A) (s : State) : list Event :=
  drop (length (trace s)) (trace (snd (m s))).

Fixpoint sentNotifications (evs : list Event) : list (NotificationEnum * Params) :=
  match evs with
  | [] => []
  | EvSendNotification _ method p :: rest => (method, p) :: sentNotifications rest
  | _ :: rest => sentNotifications rest
  end.

Fixpoint storeWrites (evs : list Event) : list (ContentEnum * string) :=
  match evs with
  | [] => []
  | EvSetValue key text :: rest => (key, text) :: storeWrites rest
  | _ :: rest => storeWrites rest
  end.

Definition isSend (ev : Event) : bool :=
  match ev with EvSendNotification _ _ _ => true | _ => false end.

Definition isRegistration (ev : Event) : bool :=
  match ev with
  | EvOnNotification _ _ | EvOnDidChangeTextDocument | EvSetOnChange _ => true
  | _ => false
  end.

Definition set_trace (t : list Event) (s : State) : State :=
  match s with
  | mkState ov se oe ct cb lb cs cc dl tp lc _ =>
      mkState ov se oe ct cb lb cs cc dl tp lc t
  end.

(** The comment rule registered for ["ov"], if any. *)
Definition ovCommentRule (s : State) : option CommentRule :=
  (languageConfigurations s !! "ov") ≫= comments.

(** No two slashes in a row. *)
Fixpoint noDoubleSlash (s : string) : bool :=
  match s with
  | EmptyString => true
  | String c rest =>
      match rest with
      | String c' _ =>
          if (Ascii.eqb c "/"%char && Ascii.eqb c' "/"%char)%bool then false
          else noDoubleSlash rest
      | EmptyString => true
      end
  end.

(** No slash at all. *)
Fixpoint noSlash (s : string) : bool :=
  match s with
  | EmptyString => true
  | String c rest => negb (Ascii.eqb c "/"%char) && noSlash rest
  end.

(** The scheme [createUrl] picks. *)
Definition scheme_of (location : Location) : string :=
  if String.eqb (protocol location) "https:" then "wss" else "ws".

(** Two sessions in a row: the socket opens, closes, and opens again. *)
Definition twoSessions : M (nat * nat) :=
  c1 ← onConnection;
  connection_onClose c1;;
  c2 ← onConnection;
  mret (c1, c2).

(** ** Example pages *)

Definition ovModel : TextModel := mkTextModel "inmemory://model/1" "IF x THEN y" "ov".
Definition schemaModel : TextModel := mkTextModel "inmemory://model/2" "x: Number" "yaml".
Definition outputModel : TextModel := mkTextModel "inmemory://model/3" "" "java".

Definition cultureBox0 : HTMLSelectElement := mkSelect ["en"; "de"] 0 None.
Definition languageBox0 : HTMLSelectElement := mkSelect ["Java"; "CSharp"; "Node"] 0 None.

(** A page with all three editors loaded and both select boxes present,
    before the socket has opened. *)
Definition page0 : State :=
  mkState (mkEditor (Some ovModel)) (mkEditor (Some schemaModel))
    (mkEditor (Some outputModel))
    (<[Culture := "de"]> (<[Language := "Node"]> ∅))
    (Some cultureBox0) (Some languageBox0) [] 0 0 ∅ ∅ [].

(** The same page when the primary editor has no model attached. *)
Definition pageNoModel : State :=
  mkState (mkEditor None) (mkEditor (Some schemaModel))
    (mkEditor (Some outputModel))
    (<[Culture := "de"]> (<[Language := "Node"]> ∅))
    (Some (with_onchange OnCultureChange cultureBox0))
    (Some (with_onchange OnLanguageChange languageBox0))
    [mkConnection [SemanticHighlighting; GeneratedCode; CommentKeywordChanged] false]
    0 1 ∅ ∅ [].

(** The change events of an edit that has left the schema editor, resp.
    the primary editor, with the text it now shows. *)
Definition yamlEdit : TextDocumentChangeEvent := mkChangeEvent schemaModel.

Definition ovEdit : TextDocumentChangeEvent := mkChangeEvent ovModel.

(** The page after the handlers are set and the user has picked the second
    culture. *)
Definition pagePicked : State :=
  set_cultureSelectBox (Some (mkSelect ["en"; "de"] 1 (Some OnCultureChange))) page0.

(** The ["ov"] configuration as a page may have registered it: both
    comment markers and the brackets. *)
Definition ovConfiguration : LanguageConfiguration :=
  mkLanguageConfiguration
    (Some (mkCommentRule (Some "//") (Some ("/*", "*/"))))
    (Some [("(", ")")]) None (Some [("(", ")")]) None.

Definition pageConfigured : State :=
  set_languageConfigurations (<["ov" := ovConfiguration]> ∅) page0.

(** JSON texts: [quoted s] is [s] between double quotes. *)
Definition dquote : string := String "034"%char EmptyString.
Definition quoted (s : string) : string := dquote +:+ s +:+ dquote.

Definition classifiersPayload : string :=
  "[[" +:+ quoted "" +:+ ",0],[" +:+ quoted "[0-9]+" +:+ ",1]]".
Definition codePayload : string :=
  "{" +:+ quoted "language" +:+ ":" +:+ quoted "Java" +:+ ","
  +:+ quoted "implementation" +:+ ":" +:+ quoted "class X{}" +:+ "}".

(** A pattern that starts with a quantifier has nothing to repeat: the
    [RegExp] constructor throws on it. *)
Definition startsWithQuantifier (pattern : string) : bool :=
  match pattern with
  | String c _ =>
      (Ascii.eqb c "*" || Ascii.eqb c "+" || Ascii.eqb c "?")%bool
  | EmptyString => false
  end.

(** Language ids an editor page has registered; ["node"] is not one. *)
Definition knownLanguages : list string :=
  ["plaintext"; "java"; "csharp"; "javascript"; "python"; "yaml"; "ov"].

Definition lookupPayload {A} (table : list (string * A)) (p : string) : option A :=
  snd <$> find (λ entry, String.eqb p (fst entry)) table.

(** A host for the examples: it decodes the payloads of its two tables,
    rejects the patterns that start with a quantifier, lower-cases ASCII
    letters and knows the languages above. *)
Definition tableHost
    (classifiers : list (string * list (string * TokenClass)))
    (codes : list (string * ICodeNotification)) : Host := {|
  JSON_parse_classifiers := lookupPayload classifiers;
  JSON_parse_code := lookupPayload codes;
  RegExp_valid pattern := negb (startsWithQuantifier pattern);
  toLowerCase := asciiLower;
  toLowerCase_on_ascii := λ s _, eq_refl;
  selectLanguage id :=
    if bool_decide (id ∈ knownLanguages) then id else "plaintext"
|}.

Definition fixtureHost : Host :=
  tableHost [(classifiersPayload, [("", 0%nat); ("[0-9]+", 1%nat)])]
            [(codePayload, mkCodeNotification "Java" "class X{}")].

(** More example data: a payload the host cannot decode, a culture box
    with nothing selected, and a page whose workspace already holds three
    document-change listeners. *)
Definition badPayload : string := "<html>".

Definition cultureBoxUnselected : HTMLSelectElement :=
  mkSelect ["en"; "de"] (-1) (Some OnCultureChange).

Definition pageThreeListeners : State := set_docChangeListeners 3 page0.

(** More payloads: a second table and a second generated code, a table
    with a pattern the constructor rejects, and generated code for a
    language the editor does not know. *)
Definition classifiersPayload2 : string := "[[" +:+ quoted "IF" +:+ ",2]]".
Definition codePayload2 : string :=
  "{" +:+ quoted "language" +:+ ":" +:+ quoted "CSharp" +:+ ","
  +:+ quoted "implementation" +:+ ":" +:+ quoted "class Y{}" +:+ "}".
Definition invalidPatternPayload : string := "[[" +:+ quoted "*" +:+ ",1]]".
Definition nodePayload : string :=
  "{" +:+ quoted "language" +:+ ":" +:+ quoted "Node" +:+ ","
  +:+ quoted "implementation" +:+ ":" +:+ quoted "module.exports = {}" +:+ "}".

Definition fixtureHost2 : Host :=
  tableHost
    [(classifiersPayload, [("", 0%nat); ("[0-9]+", 1%nat)]);
     (classifiersPayload2, [("IF", 2%nat)]);
     (invalidPatternPayload, [("*", 1%nat)])]
    [(codePayload, mkCodeNotification "Java" "class X{}");
     (codePayload2, mkCodeNotification "CSharp" "class Y{}");
     (nodePayload, mkCodeNotification "Node" "module.exports = {}")].

(** The example page when the output editor shows a ["yaml"] document. *)
Definition pageYamlOutput : State :=
  set_outputEditor
    (mkEditor (Some (mkTextModel "inmemory://model/3" "" "yaml")))
    (set_docChangeListeners 1 page0).

(** What the document-change listener and the inbound handlers never
    touch. *)
Definition bridge_frame (s s' : State) : Prop :=
  ovEditor s' = ovEditor s
  ∧ schemaEditor s' = schemaEditor s
  ∧ cultureSelectBox s' = cultureSelectBox s
  ∧ languageSelectBox s' = languageSelectBox s
  ∧ connections s' = connections s
  ∧ currentConnection s' = currentConnection s
  ∧ docChangeListeners s' = docChangeListeners s
  ∧ content s' !! Culture = content s !! Culture
  ∧ content s' !! Language = content s !! Language.

(** ** Proof tools *)

Ltac munfold :=
  unfold mbind, mret, M_bind, M_ret, bind, ret, gets, modify, throw,
         nonNull, parsed in *.

(** Take a state apart into its fields. *)
Ltac destruct_state s :=
  destruct s as [?ov ?se ?oe ?ct ?cb ?lb ?cs ?cc ?dl ?tp ?lc ?tr]; simpl in *.

Ltac sublist_tac :=
  repeat first [apply sublist_nil | apply sublist_skip | apply sublist_cons].

Lemma truthy_spec (s : string) : truthy s = true ↔ s ≠ "".
Proof.
  unfold truthy. destruct (String.eqb_spec s ""); simpl; split; congruence.
Qed.

(** ** Token-provider factory: the loop against the spec's words *)

Section GetRegEx.
Context `{Host}.

Lemma getRegEx_fold_None {C} (l : list (string * C)) :
  fold_left getRegEx_step l None = None.
Proof. by induction l. Qed.

Lemma getRegEx_fold {C} (l : list (string * C)) (acc : list (RegExp * C)) :
  fold_left getRegEx_step l (Some acc) = (λ t, acc ++ t) <$> getRegEx l.
Proof.
  unfold getRegEx. revert acc. induction l as [|e l IH]; intros acc; simpl.
  - by rewrite app_nil_r.
  - destruct (truthy e.1); [|apply IH].
    unfold RegExp_new. destruct (RegExp_valid e.1).
    + rewrite IH, (IH [_]). rewrite <- option_fmap_compose.
      apply option_fmap_ext. intros t. simpl. by rewrite <- app_assoc.
    + by rewrite getRegEx_fold_None.
Qed.

Lemma getRegEx_cons {C} (e : string * C) (l : list (string * C)) :
  getRegEx (e :: l) =
    if truthy e.1
    then if RegExp_valid e.1
         then (λ t, (mkRegExp e.1 "g", e.2) :: t) <$> getRegEx l
         else None
    else getRegEx l.
Proof.
  unfold getRegEx at 1. simpl. destruct (truthy e.1); [|done].
  unfold RegExp_new. destruct (RegExp_valid e.1).
  - by rewrite getRegEx_fold.
  - by rewrite getRegEx_fold_None.
Qed.

Lemma getRegEx_compiledNonEmpty {C} (l : list (string * C)) :
  Forall compiles l → getRegEx l = Some (compiledNonEmpty l).
Proof.
  induction 1 as [|e l He Hl IH]; [done|].
  rewrite getRegEx_cons, IH. unfold compiledNonEmpty.
  destruct (truthy e.1) eqn:Ht.
  - apply truthy_spec in Ht. rewrite (He Ht). simpl.
    by rewrite filter_cons_True.
  - assert (¬ e.1 ≠ "") as Hn.
    { intros Hne. apply truthy_spec in Hne. congruence. }
    by rewrite filter_cons_False.
Qed.

Lemma getRegEx_Some {C} (l : list (string * C)) (t : list (RegExp * C)) :
  getRegEx l = Some t → Forall compiles l ∧ t = compiledNonEmpty l.
Proof.
  revert t. induction l as [|e l IH]; intros t Ht.
  - injection Ht as <-. by split.
  - rewrite getRegEx_cons in Ht. destruct (truthy e.1) eqn:Htr.
    + destruct (RegExp_valid e.1) eqn:Hv; [|done].
      destruct (getRegEx l) as [t'|]; [|done]. injection Ht as <-.
      destruct (IH t' eq_refl) as [Hl ->].
      split; [constructor; [by intros _ | done]|].
      apply truthy_spec in Htr. unfold compiledNonEmpty.
      by rewrite filter_cons_True.
    + destruct (IH t Ht) as [Hl ->]. split.
      * constructor; [|done]. intros Hne. apply truthy_spec in Hne. congruence.
      * unfold compiledNonEmpty. rewrite filter_cons_False; [done|].
        intros Hne. apply truthy_spec in Hne. congruence.
Qed.

Lemma getRegEx_None {C} (l : list (string * C)) :
  ¬ Forall compiles l → getRegEx l = None.
Proof.
  intros Hnot. destruct (getRegEx l) as [t|] eqn:Ht; [|done].
  destruct Hnot. by apply getRegEx_Some in Ht as [? _].
Qed.

End GetRegEx.

Lemma compiledNonEmpty_patterns {C} (l : list (string * C)) :
  map (λ rc, (source rc.1, rc.2)) (compiledNonEmpty l) = filter (λ e, e.1 ≠ "") l.
Proof.
  unfold compiledNonEmpty. rewrite map_map. simpl.
  induction (filter _ l) as [|[p c] t IH]; simpl; [done | by rewrite IH].
Qed.

Lemma compiledNonEmpty_flags {C} (l : list (string * C)) :
  Forall (λ rc, flags rc.1 = "g") (compiledNonEmpty l).
Proof.
  unfold compiledNonEmpty. apply Forall_forall. intros rc Hin.
  apply list_elem_of_In, in_map_iff in Hin. destruct Hin as (e & <- & _). done.
Qed.

(** ** Inbound handlers *)

(** C2, as the code has it.  A semantic-highlighting payload that decodes
    to [entries], all of whose non-empty patterns the [RegExp] constructor
    accepts, makes the handler install, as the token provider of ["ov"],
    the table [compiledNonEmpty entries]: read back as (pattern, class)
    pairs it is exactly the sub-list of the entries with a non-empty
    pattern, in payload order, each compiled with the flag [g]; an empty
    pattern gets no entry.  A payload of one empty-pattern entry followed
    by one non-empty-pattern entry gives a table of exactly that one
    entry. *)
Theorem semanticHighlighting_installs_nonempty_patterns `{Host}
    (params : string) (entries : list (string * TokenClass)) (s : State) :
  JSON_parse_classifiers params = Some entries →
  Forall compiles entries →
  ∃ s', semanticHighlighting_handler params s = (Normal tt, s')
    ∧ tokensProviders s' !! "ov" = Some (OvlTokenProvider (compiledNonEmpty entries))
    ∧ map (λ rc, (source rc.1, rc.2)) (compiledNonEmpty entries)
        = filter (λ e, e.1 ≠ "") entries
    ∧ Forall (λ rc, flags rc.1 = "g") (compiledNonEmpty entries)
    ∧ (∀ c1 p c2, entries = [("", c1); (p, c2)] → p ≠ "" →
         compiledNonEmpty entries = [(mkRegExp p "g", c2)]).
Proof.
  intros Hparse Hvalid.
  unfold semanticHighlighting_handler. munfold. rewrite Hparse.
  munfold. unfold createTokenizationSupport.
  rewrite (getRegEx_compiledNonEmpty _ Hvalid).
  unfold setTokensProvider, modify.
  destruct_state s. eexists. split; [reflexivity|].
  simpl. split; [by rewrite lookup_insert_eq|].
  split; [apply compiledNonEmpty_patterns|].
  split; [apply compiledNonEmpty_flags|].
  intros c1 p c2 -> Hp. unfold compiledNonEmpty.
  rewrite filter_cons_False by (simpl; intros Hn; by apply Hn).
  by rewrite filter_cons_True.
Qed.

Lemma semanticHighlighting_installs_nonempty_patterns_witness :
  ∃ s', @semanticHighlighting_handler fixtureHost classifiersPayload page0
          = (Normal tt, s')
    ∧ tokensProviders s' !! "ov"
        = Some (OvlTokenProvider [(mkRegExp "[0-9]+" "g", 1%nat)]).
Proof.
  assert (Forall (@compiles fixtureHost TokenClass)
            [("", 0%nat); ("[0-9]+", 1%nat)]) as Hvalid.
  { repeat (constructor; [intros _; reflexivity|]). constructor. }
  destruct (@semanticHighlighting_installs_nonempty_patterns fixtureHost
              classifiersPayload [("", 0%nat); ("[0-9]+", 1%nat)] page0
              eq_refl Hvalid)
    as (s' & Hrun & Htable & _).
  exists s'. split; [exact Hrun|]. rewrite Htable. reflexivity.
Defined.

(** C2 as stated fails: a payload that decodes to one entry whose
    non-empty pattern the [RegExp] constructor rejects installs no table
    at all. *)
Lemma semanticHighlighting_invalid_pattern :
  @JSON_parse_classifiers fixtureHost2 invalidPatternPayload = Some [("*", 1%nat)]
  ∧ @semanticHighlighting_handler fixtureHost2 invalidPatternPayload page0
      = (Normal tt, page0)
  ∧ tokensProviders
      (snd (@semanticHighlighting_handler fixtureHost2 invalidPatternPayload page0))
      !! "ov" = None.
Proof. by vm_compute. Qed.

(** *** The change event raised by the generated-code handler *)

Lemma bridge_frame_refl (s : State) : bridge_frame s s.
Proof. by repeat split. Qed.

Lemma bridge_frame_trans (s1 s2 s3 : State) :
  bridge_frame s1 s2 → bridge_frame s2 s3 → bridge_frame s1 s3.
Proof.
  intros (?&?&?&?&?&?&?&?&?) (?&?&?&?&?&?&?&?&?).
  repeat split; congruence.
Qed.

Lemma set_outputEditor_frame (e : Editor) (s : State) :
  outputEditor (set_outputEditor e s) = e
  ∧ bridge_frame s (set_outputEditor e s)
  ∧ trace (set_outputEditor e s) = trace s
  ∧ content (set_outputEditor e s) = content s.
Proof. destruct_state s. by repeat split. Qed.

Lemma listener_keeps (event : TextDocumentChangeEvent) (s : State) :
  outputEditor (snd (onDidChangeTextDocument_listener event s)) = outputEditor s
  ∧ bridge_frame s (snd (onDidChangeTextDocument_listener event s)).
Proof.
  unfold onDidChangeTextDocument_listener, sendSchemaChangedNotification,
    sendNotification, ContentManager_setValue, bridge_frame. munfold.
  destruct s as [[[m|]] se oe ct cb lb cs cc dl tp lc tr];
    destruct (String.eqb (languageId (textDocument event)) "yaml");
    try destruct (String.eqb (languageId (textDocument event)) "ov");
    simpl; rewrite ?lookup_insert_ne by done; done.
Qed.

Lemma listener_silent (event : TextDocumentChangeEvent) (s : State) :
  languageId (textDocument event) ≠ "yaml" →
  languageId (textDocument event) ≠ "ov" →
  onDidChangeTextDocument_listener event s = (Normal tt, s).
Proof.
  intros Hy Ho. unfold onDidChangeTextDocument_listener.
  destruct (String.eqb_spec (languageId (textDocument event)) "yaml"); [done|].
  by destruct (String.eqb_spec (languageId (textDocument event)) "ov").
Qed.

Lemma repeatM_keeps (m : M unit) (n : nat) (s : State) :
  (∀ s0, outputEditor (snd (m s0)) = outputEditor s0
         ∧ bridge_frame s0 (snd (m s0))) →
  fst (repeatM n m s) = Normal tt
  ∧ outputEditor (snd (repeatM n m s)) = outputEditor s
  ∧ bridge_frame s (snd (repeatM n m s)).
Proof.
  intros Hm. revert s. induction n as [|n IH]; intros s.
  - simpl. split; [done|]. split; [done|]. apply bridge_frame_refl.
  - change (repeatM (S n) m s) with (repeatM n m (snd (m s))).
    destruct (IH (snd (m s))) as (Hr & Ho & Hf). destruct (Hm s) as [Ho' Hf'].
    split; [done|]. split; [congruence|]. by eapply bridge_frame_trans.
Qed.

Lemma repeatM_silent (m : M unit) (n : nat) (s : State) :
  m s = (Normal tt, s) → repeatM n m s = (Normal tt, s).
Proof.
  intros Hm. induction n as [|n IH]; [done|].
  change (repeatM (S n) m s) with (repeatM n m (snd (m s))). by rewrite Hm.
Qed.

Lemma fireDidChangeTextDocument_keeps (event : TextDocumentChangeEvent)
    (s : State) :
  ∃ s', fireDidChangeTextDocument event s = (Normal tt, s')
    ∧ outputEditor s' = outputEditor s
    ∧ bridge_frame s s'.
Proof.
  unfold fireDidChangeTextDocument. munfold.
  destruct (repeatM_keeps (onDidChangeTextDocument_listener event)
              (docChangeListeners s) s (listener_keeps event))
    as (Hr & Ho & Hf).
  destruct (repeatM _ _ s) as [r s']. simpl in *. subst r. by exists s'.
Qed.

Lemma fireDidChangeTextDocument_silent (event : TextDocumentChangeEvent)
    (s : State) :
  (docChangeListeners s = 0%nat
   ∨ (languageId (textDocument event) ≠ "yaml"
      ∧ languageId (textDocument event) ≠ "ov")) →
  fireDidChangeTextDocument event s = (Normal tt, s).
Proof.
  unfold fireDidChangeTextDocument. munfold. intros [-> | [Hy Ho]]; [done|].
  apply repeatM_silent. by apply listener_silent.
Qed.

Section GeneratedCode.
Context `{Host}.

(** The run of the handler on a state whose output editor has model [m]:
    the text is set, the change event goes to the listeners, the language
    is set. *)
Lemma generatedCode_handler_model (params lang impl : string) (s : State)
    (m : TextModel) :
  JSON_parse_code params = Some (mkCodeNotification lang impl) →
  getModel (outputEditor s) = Some m →
  ∃ s1,
    fireDidChangeTextDocument
      (mkChangeEvent (mkTextModel (uri m) impl (languageId m)))
      (set_outputEditor (mkEditor (Some (mkTextModel (uri m) impl (languageId m)))) s)
      = (Normal tt, s1)
    ∧ generatedCode_handler params s
        = (Normal tt,
           set_outputEditor
             (mkEditor (Some (mkTextModel (uri m) impl
                                (selectLanguage (toLowerCase lang))))) s1)
    ∧ bridge_frame s s1.
Proof.
  intros Hparse Hm.
  destruct (fireDidChangeTextDocument_keeps
              (mkChangeEvent (mkTextModel (uri m) impl (languageId m)))
              (set_outputEditor
                 (mkEditor (Some (mkTextModel (uri m) impl (languageId m)))) s))
    as (s1 & Hfire & Ho & Hf).
  exists s1. split; [exact Hfire|]. split.
  - unfold generatedCode_handler. munfold. rewrite Hparse. munfold.
    rewrite Hm. unfold model_setValue, setModelLanguage. munfold.
    simpl. rewrite Hfire. rewrite Ho.
    by rewrite (proj1 (set_outputEditor_frame _ s)).
  - eapply bridge_frame_trans; [|exact Hf].
    apply set_outputEditor_frame.
Qed.

(** C3, as the code has it.  A generated-code payload that decodes to
    [{language, implementation}]: when the output editor has a model, the
    handler completes and the model then has the text [implementation]
    and the language id the editor selects for the lower-cased [language],
    which is the lower-cased [language] itself when the editor knows it;
    when the output editor has no model, the state is left as it was.
    Lower-casing turns ["Java"] into ["java"]. *)
Theorem generatedCode_replaces_output
    (params lang impl : string) (s : State) :
  JSON_parse_code params = Some (mkCodeNotification lang impl) →
  (∀ m, getModel (outputEditor s) = Some m →
     ∃ s', generatedCode_handler params s = (Normal tt, s')
       ∧ getModel (outputEditor s')
           = Some (mkTextModel (uri m) impl (selectLanguage (toLowerCase lang)))
       ∧ (selectLanguage (toLowerCase lang) = toLowerCase lang →
            getModel (outputEditor s')
              = Some (mkTextModel (uri m) impl (toLowerCase lang))))
  ∧ (getModel (outputEditor s) = None →
     generatedCode_handler params s = (Normal tt, s))
  ∧ (isAscii lang = true → toLowerCase lang = asciiLower lang)
  ∧ asciiLower "Java" = "java".
Proof.
  intros Hparse. split; [|split; [|split]].
  - intros m Hm.
    destruct (generatedCode_handler_model params lang impl s m Hparse Hm)
      as (s1 & _ & Hrun & _).
    eexists. split; [exact Hrun|].
    rewrite (proj1 (set_outputEditor_frame _ s1)). simpl.
    split; [done|]. by intros ->.
  - intros Hm. unfold generatedCode_handler. munfold. rewrite Hparse.
    munfold. by rewrite Hm.
  - apply toLowerCase_on_ascii.
  - reflexivity.
Qed.

End GeneratedCode.

Lemma generatedCode_replaces_output_witness :
  ∃ s', @generatedCode_handler fixtureHost codePayload page0 = (Normal tt, s')
    ∧ getModel (outputEditor s')
        = Some (mkTextModel "inmemory://model/3" "class X{}" "java").
Proof.
  destruct (proj1 (@generatedCode_replaces_output fixtureHost codePayload
                     "Java" "class X{}" page0 eq_refl) outputModel eq_refl)
    as (s' & Hrun & Hmodel & _).
  exists s'. split; [exact Hrun|]. rewrite Hmodel. reflexivity.
Defined.

(** C3 as stated fails: for a language the editor does not know, the
    language id of the output model does not become the lower-cased
    language string. *)
Lemma generatedCode_unknown_language :
  @JSON_parse_code fixtureHost2 nodePayload
    = Some (mkCodeNotification "Node" "module.exports = {}")
  ∧ @toLowerCase fixtureHost2 "Node" = "node"
  ∧ (languageId <$>
       getModel (outputEditor (snd (@generatedCode_handler fixtureHost2
                                      nodePayload page0))))
      = Some "plaintext".
Proof. by vm_compute. Qed.

(** ** Outbound senders *)

Lemma sendSchemaChangedNotification_model (s : State) (m : TextModel) :
  getModel (ovEditor s) = Some m →
  sendSchemaChangedNotification s
    = (Normal tt,
       log (EvSendNotification (currentConnection s) SchemaChanged
              (SchemaParams (getValue (schemaEditor s)) (uri m))) s).
Proof.
  intros Hm. unfold sendSchemaChangedNotification, sendNotification. munfold.
  rewrite Hm. reflexivity.
Qed.

Lemma sendSchemaChangedNotification_null (s : State) :
  getModel (ovEditor s) = None →
  sendSchemaChangedNotification s = (Throw TypeError, s).
Proof.
  intros Hm. unfold sendSchemaChangedNotification. munfold.
  rewrite Hm. reflexivity.
Qed.

Lemma sendLanguageConfiguration_null (s : State) :
  getModel (ovEditor s) = None →
  sendLanguageConfiguration s = (Throw TypeError, s).
Proof.
  intros Hm. unfold sendLanguageConfiguration. munfold.
  rewrite Hm. reflexivity.
Qed.

Lemma events_of_unchanged {A} (m : M A) (s : State) (r : Completion A) :
  m s = (r, s) → events_of m s = [].
Proof.
  intros Hrun. unfold events_of. rewrite Hrun. simpl. apply drop_all.
Qed.

Lemma events_of_appended {A} (m : M A) (s s' : State) (r : Completion A)
    (evs : list Event) :
  m s = (r, s') → trace s' = trace s ++ evs → events_of m s = evs.
Proof.
  intros Hrun Htr. unfold events_of. rewrite Hrun. simpl. rewrite Htr.
  by rewrite drop_app_length.
Qed.

(** C5, as the code has it.  With a model [m] in the primary editor, the
    schema-state send completes and appends exactly one schema-changed
    notification, on the current connection, carrying the schema editor's
    current text and [m]'s URI; the payload is the same whatever the
    history of earlier events. *)
Theorem schema_send_payload (s : State) (m : TextModel) (history : list Event) :
  getModel (ovEditor s) = Some m →
  sendSchemaChangedNotification (set_trace history s)
    = (Normal tt,
       set_trace
         (history ++ [EvSendNotification (currentConnection s) SchemaChanged
                        (SchemaParams (getValue (schemaEditor s)) (uri m))]) s).
Proof.
  intros Hm. destruct_state s.
  unfold sendSchemaChangedNotification, sendNotification. munfold.
  simpl. rewrite Hm. reflexivity.
Qed.

Lemma schema_send_payload_witness :
  sendSchemaChangedNotification
    (set_trace [EvSendNotification 0 SchemaChanged (SchemaParams "old" "inmemory://model/1")]
       page0)
  = (Normal tt,
     set_trace
       [EvSendNotification 0 SchemaChanged (SchemaParams "old" "inmemory://model/1");
        EvSendNotification 0 SchemaChanged (SchemaParams "x: Number" "inmemory://model/1")]
       page0).
Proof.
  exact (schema_send_payload page0 ovModel
           [EvSendNotification 0 SchemaChanged (SchemaParams "old" "inmemory://model/1")]
           eq_refl).
Defined.

(** C5 as stated fails: with no model in the primary editor the send
    throws and no notification is produced. *)
Lemma schema_send_without_model :
  sendSchemaChangedNotification pageNoModel = (Throw TypeError, pageNoModel)
  ∧ ¬ (∃ p, sentNotifications (events_of sendSchemaChangedNotification pageNoModel)
            = [(SchemaChanged, p)]).
Proof.
  assert (sendSchemaChangedNotification pageNoModel = (Throw TypeError, pageNoModel))
    as Hrun by reflexivity.
  split; [exact Hrun|]. intros [p Hp].
  rewrite (events_of_unchanged _ _ _ Hrun) in Hp. discriminate.
Qed.

(** ** Document-change listener *)

(** C1, as the code has it.  For one run of the listener: on a ["yaml"]
    document, when the primary editor has a model, exactly one
    schema-changed notification is sent and then exactly one write to the
    store happens, under [Schema], of the document's text; on an ["ov"]
    document nothing is sent and exactly one write happens, under [Code];
    on any other language id the state is left as it was. *)
Theorem docChange_listener_effects (s : State) (event : TextDocumentChangeEvent) :
  (∀ m, getModel (ovEditor s) = Some m →
     languageId (textDocument event) = "yaml" →
     ∃ s', onDidChangeTextDocument_listener event s = (Normal tt, s')
       ∧ trace s' = trace s ++
           [EvSendNotification (currentConnection s) SchemaChanged
              (SchemaParams (getValue (schemaEditor s)) (uri m));
            EvSetValue Schema (getText (textDocument event))]
       ∧ content s' = <[Schema := getText (textDocument event)]> (content s))
  ∧ (languageId (textDocument event) = "ov" →
     ∃ s', onDidChangeTextDocument_listener event s = (Normal tt, s')
       ∧ trace s' = trace s ++ [EvSetValue Code (getText (textDocument event))]
       ∧ content s' = <[Code := getText (textDocument event)]> (content s))
  ∧ (languageId (textDocument event) ≠ "yaml" →
     languageId (textDocument event) ≠ "ov" →
     onDidChangeTextDocument_listener event s = (Normal tt, s)).
Proof.
  unfold onDidChangeTextDocument_listener. split; [|split].
  - intros m Hm ->. simpl.
    change (sendSchemaChangedNotification;; ?k) with (bind (λ _, k) sendSchemaChangedNotification).
    unfold bind. rewrite (sendSchemaChangedNotification_model s m Hm).
    unfold ContentManager_setValue, modify. eexists. split; [reflexivity|].
    destruct_state s. split; [by rewrite <- app_assoc | done].
  - intros ->. simpl. unfold ContentManager_setValue, modify.
    eexists. split; [reflexivity|]. by destruct_state s.
  - intros Hy Ho.
    destruct (String.eqb_spec (languageId (textDocument event)) "yaml"); [done|].
    destruct (String.eqb_spec (languageId (textDocument event)) "ov"); [done|].
    reflexivity.
Qed.

Lemma docChange_listener_effects_witness :
  ∃ s', onDidChangeTextDocument_listener yamlEdit page0 = (Normal tt, s')
    ∧ trace s' =
        [EvSendNotification 0 SchemaChanged (SchemaParams "x: Number" "inmemory://model/1");
         EvSetValue Schema "x: Number"]
    ∧ content s' !! Schema = Some "x: Number".
Proof.
  destruct (proj1 (docChange_listener_effects page0 yamlEdit) ovModel eq_refl eq_refl)
    as (s' & Hrun & Htrace & Hcontent).
  exists s'. split; [exact Hrun|]. split; [exact Htrace|].
  rewrite Hcontent. apply lookup_insert_eq.
Defined.

(** C1 as stated fails: a ["yaml"] change while the primary editor has no
    model sends nothing and writes nothing. *)
Lemma docChange_yaml_without_model :
  languageId (textDocument yamlEdit) = "yaml"
  ∧ onDidChangeTextDocument_listener yamlEdit pageNoModel
      = (Throw TypeError, pageNoModel)
  ∧ ¬ (∃ n w,
         sentNotifications
           (events_of (onDidChangeTextDocument_listener yamlEdit) pageNoModel) = [n]
         ∧ storeWrites
           (events_of (onDidChangeTextDocument_listener yamlEdit) pageNoModel) = [w]).
Proof.
  assert (onDidChangeTextDocument_listener yamlEdit pageNoModel
          = (Throw TypeError, pageNoModel)) as Hrun by reflexivity.
  split; [reflexivity|]. split; [exact Hrun|].
  intros (n & w & Hn & _).
  rewrite (events_of_unchanged _ _ _ Hrun) in Hn. discriminate.
Qed.

(** ** Select-box handlers *)

Lemma cultureSelectBox_onchange_model (s : State) (box : HTMLSelectElement)
    (e : DomEvent) (v : string) (m : TextModel) :
  getModel (ovEditor s) = Some m →
  option_at box (selectedIndex box) = Some v →
  cultureSelectBox_onchange box (Some e) s
    = (Normal tt,
       log (EvSendNotification (currentConnection s) CultureChanged
              (CultureParams (Some v) (uri m)))
         (log (EvSetValue Culture v) (set_content (<[Culture := v]> (content s)) s))).
Proof.
  intros Hm Hv. unfold cultureSelectBox_onchange, ContentManager_setValue,
    sendNotification. munfold. rewrite Hv. simpl. rewrite Hm.
  by destruct_state s.
Qed.

Lemma languageSelectBox_onchange_model (s : State) (box : HTMLSelectElement)
    (e : DomEvent) (v : string) (m : TextModel) :
  getModel (ovEditor s) = Some m →
  option_at box (selectedIndex box) = Some v →
  languageSelectBox_onchange box (Some e) s
    = (Normal tt,
       log (EvSendNotification (currentConnection s) LanguageChanged
              (LanguageParams (Some v) (uri m)))
         (log (EvSetValue Language v) (set_content (<[Language := v]> (content s)) s))).
Proof.
  intros Hm Hv. unfold languageSelectBox_onchange, ContentManager_setValue,
    sendNotification. munfold. rewrite Hv. simpl. rewrite Hm.
  by destruct_state s.
Qed.

Lemma cultureSelectBox_onchange_null (s : State) (box : HTMLSelectElement)
    (e : DomEvent) :
  getModel (ovEditor s) = None →
  cultureSelectBox_onchange box (Some e) s = (Throw TypeError, s).
Proof.
  intros Hm. unfold cultureSelectBox_onchange. munfold.
  destruct (option_at box (selectedIndex box)); [|reflexivity].
  simpl. rewrite Hm. reflexivity.
Qed.

Lemma languageSelectBox_onchange_null (s : State) (box : HTMLSelectElement)
    (e : DomEvent) :
  getModel (ovEditor s) = None →
  languageSelectBox_onchange box (Some e) s = (Throw TypeError, s).
Proof.
  intros Hm. unfold languageSelectBox_onchange. munfold.
  destruct (option_at box (selectedIndex box)); [|reflexivity].
  simpl. rewrite Hm. reflexivity.
Qed.

Lemma fireChange_culture (s : State) (box : HTMLSelectElement) (e : option DomEvent) :
  cultureSelectBox s = Some box → onchange box = Some OnCultureChange →
  fireChange CultureSelectBox e s = cultureSelectBox_onchange box e s.
Proof.
  intros Hbox Hon. unfold fireChange. munfold. simpl. rewrite Hbox, Hon. reflexivity.
Qed.

Lemma fireChange_language (s : State) (box : HTMLSelectElement) (e : option DomEvent) :
  languageSelectBox s = Some box → onchange box = Some OnLanguageChange →
  fireChange LanguageSelectBox e s = languageSelectBox_onchange box e s.
Proof.
  intros Hbox Hon. unfold fireChange. munfold. simpl. rewrite Hbox, Hon. reflexivity.
Qed.

(** C6, as the code has it.  A change event on the culture box, when the
    box has a selected option [v] and the primary editor has a model:
    exactly one write to the store, of [v] under [Culture], and then
    exactly one culture-changed notification carrying [v], whatever the
    earlier events were.  The language box does the same under [Language]
    with the language-changed notification. *)
Theorem select_change_writes_then_sends (s : State) (box : HTMLSelectElement)
    (e : DomEvent) (v : string) (m : TextModel) :
  getModel (ovEditor s) = Some m →
  option_at box (selectedIndex box) = Some v →
  (cultureSelectBox s = Some box → onchange box = Some OnCultureChange →
     ∃ s', fireChange CultureSelectBox (Some e) s = (Normal tt, s')
       ∧ trace s' = trace s ++
           [EvSetValue Culture v;
            EvSendNotification (currentConnection s) CultureChanged
              (CultureParams (Some v) (uri m))]
       ∧ content s' = <[Culture := v]> (content s))
  ∧ (languageSelectBox s = Some box → onchange box = Some OnLanguageChange →
     ∃ s', fireChange LanguageSelectBox (Some e) s = (Normal tt, s')
       ∧ trace s' = trace s ++
           [EvSetValue Language v;
            EvSendNotification (currentConnection s) LanguageChanged
              (LanguageParams (Some v) (uri m))]
       ∧ content s' = <[Language := v]> (content s)).
Proof.
  intros Hm Hv. split; intros Hbox Hon.
  - rewrite (fireChange_culture s box (Some e) Hbox Hon).
    rewrite (cultureSelectBox_onchange_model s box e v m Hm Hv).
    eexists. split; [reflexivity|]. destruct_state s.
    split; [by rewrite <- app_assoc | done].
  - rewrite (fireChange_language s box (Some e) Hbox Hon).
    rewrite (languageSelectBox_onchange_model s box e v m Hm Hv).
    eexists. split; [reflexivity|]. destruct_state s.
    split; [by rewrite <- app_assoc | done].
Qed.

Lemma select_change_writes_then_sends_witness :
  ∃ s', fireChange CultureSelectBox (Some tt) pagePicked = (Normal tt, s')
    ∧ trace s' =
        [EvSetValue Culture "de";
         EvSendNotification 0 CultureChanged (CultureParams (Some "de") "inmemory://model/1")]
    ∧ content s' !! Culture = Some "de".
Proof.
  destruct (proj1 (select_change_writes_then_sends pagePicked
                     (mkSelect ["en"; "de"] 1 (Some OnCultureChange)) tt "de" ovModel
                     eq_refl eq_refl) eq_refl eq_refl)
    as (s' & Hrun & Htrace & Hcontent).
  exists s'. split; [exact Hrun|]. split; [exact Htrace|].
  rewrite Hcontent. apply lookup_insert_eq.
Defined.

(** C6 as stated fails: a change event on the culture box while the
    primary editor has no model sends nothing and writes nothing. *)
Lemma select_change_without_model :
  fireChange CultureSelectBox (Some tt) pageNoModel = (Throw TypeError, pageNoModel)
  ∧ ¬ (∃ n w,
         sentNotifications
           (events_of (fireChange CultureSelectBox (Some tt)) pageNoModel) = [n]
         ∧ storeWrites
           (events_of (fireChange CultureSelectBox (Some tt)) pageNoModel) = [w]).
Proof.
  assert (fireChange CultureSelectBox (Some tt) pageNoModel
          = (Throw TypeError, pageNoModel)) as Hrun by reflexivity.
  split; [exact Hrun|]. intros (n & w & Hn & _).
  rewrite (events_of_unchanged _ _ _ Hrun) in Hn. discriminate.
Qed.

(** ** The unguarded dereference of the primary editor's model *)

Lemma docChange_yaml_null (s : State) (event : TextDocumentChangeEvent) :
  getModel (ovEditor s) = None →
  languageId (textDocument event) = "yaml" →
  onDidChangeTextDocument_listener event s = (Throw TypeError, s).
Proof.
  intros Hm Hy. unfold onDidChangeTextDocument_listener. rewrite Hy. simpl.
  change (sendSchemaChangedNotification;; ?k)
    with (bind (λ _, k) sendSchemaChangedNotification).
  unfold bind. by rewrite (sendSchemaChangedNotification_null s Hm).
Qed.

Lemma connectionProvider_get_null (s : State) (c : nat) :
  getModel (ovEditor s) = None →
  connectionProvider_get c s = (Throw TypeError, set_currentConnection c s).
Proof.
  intros Hm. unfold connectionProvider_get.
  unfold mbind, M_bind, bind at 1. unfold modify at 1.
  unfold bind at 1.
  rewrite sendSchemaChangedNotification_null; [reflexivity|].
  by destruct_state s.
Qed.

Lemma sendLanguageConfiguration_no_boxes (s : State) (m : TextModel) :
  getModel (ovEditor s) = Some m →
  cultureSelectBox s = None → languageSelectBox s = None →
  sendLanguageConfiguration s = (Normal tt, s).
Proof.
  intros Hm Hc Hl. unfold sendLanguageConfiguration. munfold.
  rewrite Hm. simpl. rewrite Hc. simpl. rewrite Hl. reflexivity.
Qed.

Lemma setClickHandler_no_boxes (s : State) :
  cultureSelectBox s = None → languageSelectBox s = None →
  setClickHandler s = (Normal tt, s).
Proof.
  intros Hc Hl. unfold setClickHandler. munfold.
  rewrite Hc. simpl. rewrite Hl. reflexivity.
Qed.

(** C10, as the code has it.  Every outbound send reads the URI through
    the unguarded [getModel()!]: with no model in the primary editor the
    schema send, the option send, the listener on a ["yaml"] change, both
    select-box handlers and the session start all throw a [TypeError]
    before anything is sent and before any write to the store (in the
    select-box handlers the dereference comes before the write), leaving
    the state as it was (the session start has only assigned the current
    connection).  Absent select boxes, by contrast, are guarded: the option
    send and [setClickHandler] then complete and do nothing. *)
Theorem outbound_sends_fault_without_model (s : State) :
  getModel (ovEditor s) = None →
  sendSchemaChangedNotification s = (Throw TypeError, s)
  ∧ sendLanguageConfiguration s = (Throw TypeError, s)
  ∧ (∀ event, languageId (textDocument event) = "yaml" →
       onDidChangeTextDocument_listener event s = (Throw TypeError, s))
  ∧ (∀ box e, cultureSelectBox_onchange box (Some e) s = (Throw TypeError, s))
  ∧ (∀ box e, languageSelectBox_onchange box (Some e) s = (Throw TypeError, s))
  ∧ (∀ c, connectionProvider_get c s = (Throw TypeError, set_currentConnection c s))
  ∧ (∀ s2 m, getModel (ovEditor s2) = Some m →
       cultureSelectBox s2 = None → languageSelectBox s2 = None →
       sendLanguageConfiguration s2 = (Normal tt, s2)
       ∧ setClickHandler s2 = (Normal tt, s2)).
Proof.
  intros Hm. repeat split.
  - by apply sendSchemaChangedNotification_null.
  - by apply sendLanguageConfiguration_null.
  - intros event Hy. by apply docChange_yaml_null.
  - intros box e. by apply cultureSelectBox_onchange_null.
  - intros box e. by apply languageSelectBox_onchange_null.
  - intros c. by apply connectionProvider_get_null.
  - by eapply sendLanguageConfiguration_no_boxes.
  - by apply setClickHandler_no_boxes.
Qed.

Lemma outbound_sends_fault_without_model_witness :
  sendSchemaChangedNotification pageNoModel = (Throw TypeError, pageNoModel)
  ∧ sendLanguageConfiguration pageNoModel = (Throw TypeError, pageNoModel)
  ∧ cultureSelectBox_onchange (with_onchange OnCultureChange cultureBox0) (Some tt)
      pageNoModel = (Throw TypeError, pageNoModel).
Proof.
  pose proof (outbound_sends_fault_without_model pageNoModel eq_refl)
    as (Hschema & Hoptions & _ & Hculture & _).
  split; [exact Hschema|]. split; [exact Hoptions|]. apply Hculture.
Defined.

(** C10 as stated fails: when the language-box handler faults for want of
    a model, no write to the store has been done. *)
Lemma option_handler_faults_before_write :
  fst (fireChange LanguageSelectBox (Some tt) pageNoModel) = Throw TypeError
  ∧ ¬ (∃ w, w ∈ storeWrites
                   (events_of (fireChange LanguageSelectBox (Some tt)) pageNoModel))
  ∧ content (snd (fireChange LanguageSelectBox (Some tt) pageNoModel))
      = content pageNoModel.
Proof.
  assert (fireChange LanguageSelectBox (Some tt) pageNoModel
          = (Throw TypeError, pageNoModel)) as Hrun by reflexivity.
  split; [by rewrite Hrun|]. split; [|by rewrite Hrun].
  intros [w Hw]. rewrite (events_of_unchanged _ _ _ Hrun) in Hw.
  by apply elem_of_nil in Hw.
Qed.

(** ** Comment keyword *)

(** C8, as the code has it.  The handler registers for ["ov"] a
    configuration whose comment rule is exactly the given line-comment
    marker, with no block-comment marker; the other top-level entries of
    the ["ov"] configuration keep the value they had, other languages keep
    their configuration, and nothing else in the state changes. *)
Theorem commentKeyword_replaces_comment_rule (params : string) (s : State) :
  ∃ c', commentKeywordChanged_handler params s
          = (Normal tt,
             set_languageConfigurations (<["ov" := c']> (languageConfigurations s)) s)
    ∧ comments c' = Some (mkCommentRule (Some params) None)
    ∧ brackets c' = languageConfigurations s !! "ov" ≫= brackets
    ∧ wordPattern c' = languageConfigurations s !! "ov" ≫= wordPattern
    ∧ autoClosingPairs c' = languageConfigurations s !! "ov" ≫= autoClosingPairs
    ∧ surroundingPairs c' = languageConfigurations s !! "ov" ≫= surroundingPairs
    ∧ (∀ l, l ≠ "ov" →
         (<["ov" := c']> (languageConfigurations s)) !! l
           = languageConfigurations s !! l).
Proof.
  unfold commentKeywordChanged_handler, setLanguageConfiguration, modify.
  eexists. split; [reflexivity|].
  destruct (languageConfigurations s !! "ov") as [prev|]; simpl;
    repeat split; try done; intros l Hl; by rewrite lookup_insert_ne.
Qed.

Lemma commentKeyword_replaces_comment_rule_witness :
  ∃ c', languageConfigurations (snd (commentKeywordChanged_handler "#" pageConfigured))
          !! "ov" = Some c'
    ∧ comments c' = Some (mkCommentRule (Some "#") None)
    ∧ brackets c' = Some [("(", ")")].
Proof.
  destruct (commentKeyword_replaces_comment_rule "#" pageConfigured)
    as (c' & Hrun & Hcomments & Hbrackets & _).
  exists c'. rewrite Hrun. split; [apply lookup_insert_eq|].
  split; [exact Hcomments|]. rewrite Hbrackets. reflexivity.
Defined.

(** C8 as stated fails: a block-comment marker of the ["ov"] configuration
    does not survive the handler. *)
Lemma commentKeyword_drops_block_comment :
  (ovCommentRule pageConfigured ≫= blockComment) = Some ("/*", "*/")
  ∧ (ovCommentRule (snd (commentKeywordChanged_handler "#" pageConfigured))
       ≫= blockComment) = None
  ∧ (ovCommentRule (snd (commentKeywordChanged_handler "#" pageConfigured))
       ≫= lineComment) = Some "#".
Proof. vm_compute. done. Qed.

(** ** Session start *)

Lemma alter_last {A} (f : A → A) (l : list A) (x : A) :
  alter f (length l) (l ++ [x]) = l ++ [f x].
Proof.
  replace (length l) with (length l + 0)%nat by lia.
  by rewrite alter_app_r.
Qed.

Lemma lookup_last {A} (l : list A) (x : A) : (l ++ [x]) !! length l = Some x.
Proof. by apply list_lookup_middle. Qed.

(** [connectionProvider_get] is its sending half followed by its
    registering half. *)
Lemma connectionProvider_get_split (c : nat) (s : State) :
  connectionProvider_get c s = (get_sends c;; get_registrations) s.
Proof.
  unfold connectionProvider_get, get_sends, get_registrations.
  unfold mbind, M_bind, bind, modify.
  destruct (sendSchemaChangedNotification _) as [[[]|e] s1]; [|reflexivity].
  destruct (sendLanguageConfiguration s1) as [[[]|e] s2]; reflexivity.
Qed.

Section SessionStart.
Context `{Host}.

(** C7.  At session start on a new connection [c],
    [connectionProvider.get] is its first half followed by its second
    half: the first half only sends, in the order schema-changed,
    culture-changed, language-changed (each option send present only when
    its select box is); up to the end of that half connection [c] has no
    listener, so no inbound notification is processed; the second half
    only registers listeners and handlers and sends nothing.  When the
    primary editor has a model and both boxes are present, all three sends
    and all registrations happen, in this order. *)
Theorem session_start_sends_precede_listeners (s : State) :
  let c := length (connections s) in
  let s0 := set_connections (connections s ++ [mkConnection [] false]) s in
  newConnection s = (Normal c, s0)
  ∧ connectionProvider_get c s0 = (get_sends c;; get_registrations) s0
  ∧ ∃ r1 s1 sends r2 s2 regs,
      get_sends c s0 = (r1, s1)
    ∧ trace s1 = trace s ++ sends
    ∧ Forall (λ ev, isSend ev = true) sends
    ∧ sublist (map fst (sentNotifications sends))
        [SchemaChanged; CultureChanged; LanguageChanged]
    ∧ (∀ method params, deliver c method params s1 = (Normal tt, s1))
    ∧ connectionProvider_get c s0 = (r2, s2)
    ∧ trace s2 = trace s1 ++ regs
    ∧ Forall (λ ev, isRegistration ev = true) regs
    ∧ (∀ m cb lb,
         getModel (ovEditor s) = Some m →
         cultureSelectBox s = Some cb →
         languageSelectBox s = Some lb →
         r2 = Normal tt
         ∧ sends =
             [EvSendNotification c SchemaChanged
                (SchemaParams (getValue (schemaEditor s)) (uri m));
              EvSendNotification c CultureChanged
                (CultureParams (content s !! Culture) (uri m));
              EvSendNotification c LanguageChanged
                (LanguageParams (content s !! Language) (uri m))]
         ∧ regs =
             [EvOnNotification c SemanticHighlighting;
              EvOnNotification c GeneratedCode;
              EvOnDidChangeTextDocument;
              EvOnNotification c CommentKeywordChanged;
              EvSetOnChange CultureSelectBox;
              EvSetOnChange LanguageSelectBox]
         ∧ connections s2 !! c
             = Some (mkConnection
                       [SemanticHighlighting; GeneratedCode; CommentKeywordChanged]
                       false)).
Proof.
  intros c s0. split; [by destruct_state s|].
  split; [apply connectionProvider_get_split|].
  assert (∀ s1, connections s1 = connections s ++ [mkConnection [] false] →
            ∀ method params, deliver c method params s1 = (Normal tt, s1))
    as Hquiet.
  { intros s1 Hc method params. unfold deliver. munfold. rewrite Hc.
    subst c. rewrite lookup_last. reflexivity. }
  unfold get_sends, connectionProvider_get, get_registrations,
    sendSchemaChangedNotification, sendLanguageConfiguration,
    addSemanticHighlightingNotificationListener,
    addGeneratedCodeNotificationListener, addDidChangeTextDocumentListener,
    addAliasesChangesListener, setClickHandler, onNotification,
    sendNotification, ContentManager_getValue.
  munfold.
  destruct s as [[[m|]] se oe ct cb lb cs cc dl tp lc tr];
    simpl in c, s0, Hquiet; subst s0 c; simpl.
  2:{ (* no model: the first send throws *)
    eexists _, _, [], _, _, [].
    split; [reflexivity|]. split; [simpl; by rewrite app_nil_r|].
    split; [constructor|]. split; [simpl; sublist_tac|].
    split; [by apply Hquiet|]. split; [reflexivity|].
    split; [simpl; by rewrite app_nil_r|]. split; [constructor|].
    intros ? ? ? ?. discriminate. }
  destruct cb as [cb|], lb as [lb|]; simpl;
    rewrite ?alter_last; simpl;
    eexists _, _, _, _, _, _.
  all: split; [reflexivity|].
  all: split; [simpl; rewrite <- ?app_assoc; simpl; reflexivity|].
  all: split; [by repeat constructor|].
  all: split; [simpl; sublist_tac|].
  all: split; [by apply Hquiet|].
  all: split; [reflexivity|].
  all: split; [simpl; rewrite <- ?app_assoc; simpl; reflexivity|].
  all: split; [by repeat constructor|].
  all: intros m' cb' lb' Hm Hcb Hlb; try discriminate.
  injection Hm as <-. injection Hcb as <-. injection Hlb as <-.
  split; [reflexivity|]. split; [reflexivity|]. split; [reflexivity|].
  cbn [connections]. rewrite lookup_last. reflexivity.
Qed.

End SessionStart.

Lemma session_start_sends_precede_listeners_witness :
  ∃ s2, connectionProvider_get 0 (snd (newConnection page0)) = (Normal tt, s2)
    ∧ trace s2 =
        [EvSendNotification 0 SchemaChanged (SchemaParams "x: Number" "inmemory://model/1");
         EvSendNotification 0 CultureChanged (CultureParams (Some "de") "inmemory://model/1");
         EvSendNotification 0 LanguageChanged (LanguageParams (Some "Node") "inmemory://model/1");
         EvOnNotification 0 SemanticHighlighting;
         EvOnNotification 0 GeneratedCode;
         EvOnDidChangeTextDocument;
         EvOnNotification 0 CommentKeywordChanged;
         EvSetOnChange CultureSelectBox;
         EvSetOnChange LanguageSelectBox].
Proof.
  destruct (@session_start_sends_precede_listeners fixtureHost page0)
    as (Hnew & _ & r1 & s1 & sends & r2 & s2 & regs & _ & Ht1 & _ & _ & _
        & Hget & Ht2 & _ & Hfull).
  destruct (Hfull ovModel cultureBox0 languageBox0 eq_refl eq_refl eq_refl)
    as (-> & -> & -> & _).
  exists s2. rewrite Hnew. split; [exact Hget|].
  rewrite Ht2, Ht1. reflexivity.
Defined.

(** ** Reconnects *)

Lemma connection_onClose_listeners (c : nat) (s : State) :
  ∃ s', connection_onClose c s = (Normal tt, s')
    ∧ docChangeListeners s' = docChangeListeners s.
Proof.
  unfold connection_onClose, modify. eexists. split; [reflexivity|].
  by destruct_state s.
Qed.

Lemma connectionProvider_get_listeners (c : nat) (s s' : State) :
  connectionProvider_get c s = (Normal tt, s') →
  docChangeListeners s' = S (docChangeListeners s).
Proof.
  unfold connectionProvider_get, sendSchemaChangedNotification,
    sendLanguageConfiguration,
    addSemanticHighlightingNotificationListener,
    addGeneratedCodeNotificationListener, addDidChangeTextDocumentListener,
    addAliasesChangesListener, setClickHandler, onNotification,
    sendNotification, ContentManager_getValue.
  munfold.
  destruct s as [[[m|]] se oe ct [cb|] [lb|] cs cc dl tp lc tr]; simpl;
    intros Hrun; simplify_eq; reflexivity.
Qed.

Section Reconnect.
Context `{Host}.

(** C9, evaluated.  After two sessions in a row on the example page, the
    listeners of the first connection are silent (a closed connection
    delivers nothing), but the workspace holds two document-change
    listeners, one per session: a single ["yaml"] change sends two
    schema-changed notifications (both on the second connection) and
    writes [Schema] twice. *)
Theorem reconnect_keeps_docChange_listener :
  fst (twoSessions page0) = Normal (0%nat, 1%nat)
  ∧ (∀ method params,
       deliver 0 method params (snd (twoSessions page0))
         = (Normal tt, snd (twoSessions page0)))
  ∧ docChangeListeners (snd (twoSessions page0)) = 2%nat
  ∧ events_of (fireDidChangeTextDocument yamlEdit) (snd (twoSessions page0)) =
      [EvSendNotification 1 SchemaChanged (SchemaParams "x: Number" "inmemory://model/1");
       EvSetValue Schema "x: Number";
       EvSendNotification 1 SchemaChanged (SchemaParams "x: Number" "inmemory://model/1");
       EvSetValue Schema "x: Number"].
Proof.
  split; [by vm_compute|]. split; [|split; by vm_compute].
  intros method params. unfold deliver. munfold.
  by replace (connections (snd (twoSessions page0)) !! 0%nat)
    with (Some (mkConnection
                  [SemanticHighlighting; GeneratedCode; CommentKeywordChanged] true))
    by (by vm_compute).
Qed.

End Reconnect.

(** ** Transport URL *)

Lemma collapseSlashes_cons (c : Ascii.ascii) (rest : string) :
  collapseSlashes (String c rest) = collapseSlashes rest
  ∨ collapseSlashes (String c rest) = String c (collapseSlashes rest).
Proof.
  destruct rest as [|c' r]; [by right|]. simpl.
  destruct (Ascii.eqb c "/" && Ascii.eqb c' "/")%bool; [by left | by right].
Qed.

Lemma collapseSlashes_head (c : Ascii.ascii) (rest : string) :
  ∃ t, collapseSlashes (String c rest) = String c t.
Proof.
  revert c. induction rest as [|c' r IH]; intros c; [by eexists|].
  simpl. destruct (Ascii.eqb c "/" && Ascii.eqb c' "/")%bool eqn:Hcc.
  - apply andb_true_iff in Hcc as [Hc Hc'].
    apply Ascii.eqb_eq in Hc, Hc'. subst. apply IH.
  - by eexists.
Qed.

Lemma collapseSlashes_noDoubleSlash (s : string) :
  noDoubleSlash (collapseSlashes s) = true.
Proof.
  induction s as [|c rest IH]; [done|].
  destruct rest as [|c' r]; [done|].
  change (collapseSlashes (String c (String c' r)))
    with (if (Ascii.eqb c "/" && Ascii.eqb c' "/")%bool
          then collapseSlashes (String c' r)
          else String c (collapseSlashes (String c' r))).
  destruct (Ascii.eqb c "/" && Ascii.eqb c' "/")%bool eqn:Hcc; [exact IH|].
  destruct (collapseSlashes_head c' r) as [t Ht]. rewrite Ht in IH |- *.
  simpl. rewrite Hcc. exact IH.
Qed.

Lemma collapseSlashes_noSlash_prefix (a x : string) :
  noSlash a = true → collapseSlashes (a +:+ x) = a +:+ collapseSlashes x.
Proof.
  induction a as [|c a IH]; intros Ha; [done|].
  simpl in Ha. apply andb_true_iff in Ha as [Hc Ha].
  apply negb_true_iff in Hc.
  change (String c a +:+ x) with (String c (a +:+ x)).
  change (String c a +:+ collapseSlashes x)
    with (String c (a +:+ collapseSlashes x)).
  rewrite <- (IH Ha).
  destruct (a +:+ x) as [|c' r]; [done|]. simpl. by rewrite Hc.
Qed.

Lemma collapseSlashes_keeps_suffix (x : string) :
  ∃ pre, collapseSlashes (x +:+ "/ovLanguage") = pre +:+ "/ovLanguage".
Proof.
  induction x as [|c x [pre IH]]; [by exists ""|].
  change (String c x +:+ "/ovLanguage") with (String c (x +:+ "/ovLanguage")).
  destruct (collapseSlashes_cons c (x +:+ "/ovLanguage")) as [-> | ->].
  - by exists pre.
  - exists (String c pre). by rewrite IH.
Qed.

Lemma append_assoc (a b c : string) : (a +:+ b) +:+ c = a +:+ (b +:+ c).
Proof.
  induction a as [|x a IH]; [done|].
  change (String x ((a +:+ b) +:+ c) = String x (a +:+ b +:+ c)). by rewrite IH.
Qed.

Lemma createUrl_unfold (env_PORT : option string) (location : Location)
    (path : string) :
  createUrl env_PORT location path
    = scheme_of location +:+ "://" +:+
      collapseSlashes ("localhost:" +:+ PORT env_PORT +:+ pathname location +:+ path).
Proof.
  unfold createUrl, scheme_of, normalizeUrl.
  destruct (String.eqb (protocol location) "https:"); reflexivity.
Qed.

(** C4.  For every page location, [createUrl "/ovLanguage"] is the scheme,
    the separator ["://"] and the slash-collapsed text
    [localhost:PORT<page path>/ovLanguage]: the scheme is ["wss"] exactly
    when the page protocol is ["https:"] and ["ws"] otherwise; the URL
    ends with ["/ovLanguage"]; after the separator there are no two
    slashes in a row; the port is [3010] when the environment sets none
    (or an empty one) and the environment's value otherwise, and with a
    slash-free port the URL is the scheme, ["://localhost:"], the port and
    the collapsed page path with ["/ovLanguage"] appended. *)
Theorem createUrl_shape (env_PORT : option string) (location : Location) :
  createUrl env_PORT location "/ovLanguage"
    = scheme_of location +:+ "://" +:+
      collapseSlashes
        ("localhost:" +:+ PORT env_PORT +:+ pathname location +:+ "/ovLanguage")
  ∧ (scheme_of location = "wss" ↔ protocol location = "https:")
  ∧ (scheme_of location = "ws" ↔ protocol location ≠ "https:")
  ∧ (∃ pre, createUrl env_PORT location "/ovLanguage" = pre +:+ "/ovLanguage")
  ∧ noDoubleSlash
      (collapseSlashes
         ("localhost:" +:+ PORT env_PORT +:+ pathname location +:+ "/ovLanguage"))
      = true
  ∧ PORT None = "3010"
  ∧ PORT (Some "") = "3010"
  ∧ (∀ p, p ≠ "" → PORT (Some p) = p)
  ∧ (noSlash (PORT env_PORT) = true →
     createUrl env_PORT location "/ovLanguage"
       = scheme_of location +:+ "://localhost:" +:+ PORT env_PORT +:+
         collapseSlashes (pathname location +:+ "/ovLanguage")).
Proof.
  split; [apply createUrl_unfold|].
  split.
  { unfold scheme_of. destruct (String.eqb_spec (protocol location) "https:");
      split; intros; congruence. }
  split.
  { unfold scheme_of. destruct (String.eqb_spec (protocol location) "https:");
      split; intros; congruence. }
  split.
  { rewrite createUrl_unfold.
    destruct (collapseSlashes_keeps_suffix
                ("localhost:" +:+ PORT env_PORT +:+ pathname location)) as [pre Hpre].
    exists (scheme_of location +:+ "://" +:+ pre).
    rewrite !append_assoc in *. by rewrite Hpre. }
  split; [apply collapseSlashes_noDoubleSlash|].
  split; [done|]. split; [done|].
  split.
  { intros p Hp. unfold PORT. apply truthy_spec in Hp. by rewrite Hp. }
  intros Hport. rewrite createUrl_unfold.
  replace ("localhost:" +:+ PORT env_PORT +:+ pathname location +:+ "/ovLanguage")
    with (("localhost:" +:+ PORT env_PORT) +:+ (pathname location +:+ "/ovLanguage"))
    by (by rewrite !append_assoc).
  rewrite collapseSlashes_noSlash_prefix by (simpl; exact Hport).
  by rewrite !append_assoc.
Qed.

Lemma createUrl_shape_witness :
  createUrl None (mkLocation "https:" "/") "/ovLanguage"
    = "wss://localhost:3010/ovLanguage"
  ∧ createUrl (Some "8080") (mkLocation "http:" "/editor//") "/ovLanguage"
    = "ws://localhost:8080/editor/ovLanguage".
Proof.
  split.
  - rewrite (proj2 (proj2 (proj2 (proj2 (proj2 (proj2 (proj2 (proj2
              (createUrl_shape None (mkLocation "https:" "/")))))))))
             eq_refl).
    reflexivity.
  - rewrite (proj2 (proj2 (proj2 (proj2 (proj2 (proj2 (proj2 (proj2
              (createUrl_shape (Some "8080") (mkLocation "http:" "/editor//")))))))))
             eq_refl).
    reflexivity.
Defined.

(** * Further properties of the code *)

(** ** [getRegEx] *)

Lemma compiledNonEmpty_nil_iff {C} (l : list (string * C)) :
  compiledNonEmpty l = [] ↔ Forall (λ e, e.1 = "") l.
Proof.
  unfold compiledNonEmpty.
  induction l as [|e l IH]; [by split|].
  destruct (decide (e.1 = "")) as [He|He].
  - rewrite filter_cons_False by (intros Hn; by apply Hn).
    rewrite IH. split; [by constructor|]. by inversion 1.
  - rewrite filter_cons_True by done. simpl. split; [done|].
    inversion 1; by subst.
Qed.

Section GetRegExProperties.
Context `{Host}.

(** X1.  [getRegEx] works entry by entry: the table of a concatenated
    payload is the concatenation of the tables, and there is a table only
    when each part has one. *)
Theorem getRegEx_app {C} (l1 l2 : list (string * C)) :
  getRegEx (l1 ++ l2)
    = match getRegEx l1, getRegEx l2 with
      | Some t1, Some t2 => Some (t1 ++ t2)
      | _, _ => None
      end.
Proof.
  unfold getRegEx at 1. rewrite fold_left_app.
  change (fold_left getRegEx_step l1 (Some [])) with (getRegEx l1).
  destruct (getRegEx l1) as [t1|].
  - rewrite getRegEx_fold. by destruct (getRegEx l2).
  - by rewrite getRegEx_fold_None.
Qed.

(** X2.  The table is empty exactly when every pattern of the payload is
    empty (in particular for the empty payload). *)
Theorem getRegEx_nil_iff {C} (l : list (string * C)) :
  getRegEx l = Some [] ↔ Forall (λ e, e.1 = "") l.
Proof.
  split.
  - intros Ht. apply getRegEx_Some in Ht as [_ Ht].
    by apply compiledNonEmpty_nil_iff.
  - intros Hl. rewrite getRegEx_compiledNonEmpty.
    + f_equal. by apply compiledNonEmpty_nil_iff.
    + eapply Forall_impl; [exact Hl|]. intros e He Hne. by destruct Hne.
Qed.

(** X3.  When [getRegEx] returns a table, no matcher in it was built from
    an empty pattern, every non-empty pattern of the payload was accepted
    by [new RegExp], and the table has no more entries than the payload. *)
Theorem getRegEx_sources_nonempty {C} (l : list (string * C))
    (t : list (RegExp * C)) :
  getRegEx l = Some t →
  Forall (λ rc, source rc.1 ≠ "") t
  ∧ Forall (λ e, e.1 ≠ "" → RegExp_valid e.1 = true) l
  ∧ (length t ≤ length l)%nat.
Proof.
  intros Ht. apply getRegEx_Some in Ht as [Hl ->].
  unfold compiledNonEmpty. split; [|split].
  - apply Forall_forall. intros rc Hin.
    apply list_elem_of_In, in_map_iff in Hin as (e & <- & Hin).
    apply list_elem_of_In, list_elem_of_filter in Hin as [Hne _]. exact Hne.
  - exact Hl.
  - rewrite length_map. apply length_filter.
Qed.

End GetRegExProperties.

Lemma getRegEx_sources_nonempty_witness :
  Forall (λ rc : RegExp * TokenClass, source rc.1 ≠ "")
    [(mkRegExp "[0-9]+" "g", 1%nat)]
  ∧ (length [(mkRegExp "[0-9]+" "g", 1%nat)] ≤ 2)%nat.
Proof.
  destruct (@getRegEx_sources_nonempty fixtureHost TokenClass
              [("", 0%nat); ("[0-9]+", 1%nat)]
              [(mkRegExp "[0-9]+" "g", 1%nat)] eq_refl) as (Hs & _ & Hlen).
  split; [exact Hs | exact Hlen].
Defined.

(** ** Inbound handlers *)

Section InboundHandlers.
Context `{Host}.

(** X4.  A payload the host cannot decode makes the semantic-highlighting
    handler and the generated-code handler throw a [SyntaxError] with the
    state as it was: the token provider and the output editor are not
    touched. *)
Theorem inbound_malformed_payload (params : string) (s : State) :
  (JSON_parse_classifiers params = None →
     semanticHighlighting_handler params s = (Throw SyntaxError, s))
  ∧ (JSON_parse_code params = None →
     generatedCode_handler params s = (Throw SyntaxError, s)).
Proof.
  split; intros Hparse.
  - unfold semanticHighlighting_handler. munfold. by rewrite Hparse.
  - unfold generatedCode_handler. munfold. by rewrite Hparse.
Qed.

(** X5.  Whatever the method and the payload, and whether it completes or
    throws, an inbound handler leaves the primary editor, the schema
    editor, the select boxes, the connections, the workspace listeners and
    the stored culture and language alone.  It sends nothing and writes
    nothing to the shared store either, unless it is the generated-code
    handler changing an output model whose language id is ["yaml"] or
    ["ov"], which the document-change listeners react to. *)
Theorem inbound_handlers_frame (method : NotificationEnum) (params : string)
    (s : State) :
  let s' := snd (handler_of method params s) in
  bridge_frame s s'
  ∧ ((method = GeneratedCode →
      ∀ m, getModel (outputEditor s) = Some m →
           languageId m ≠ "yaml" ∧ languageId m ≠ "ov") →
     trace s' = trace s ∧ content s' = content s).
Proof.
  destruct method; simpl;
    try (split; [apply bridge_frame_refl | done]).
  - unfold semanticHighlighting_handler. munfold.
    destruct (JSON_parse_classifiers params) as [entries|]; simpl;
      [|split; [apply bridge_frame_refl | done]].
    destruct (createTokenizationSupport entries); simpl;
      [|split; [apply bridge_frame_refl | done]].
    munfold. destruct_state s. split; [by repeat split | done].
  - destruct (JSON_parse_code params) as [[lang impl]|] eqn:Hparse.
    + destruct (getModel (outputEditor s)) as [m|] eqn:Hm.
      * destruct (generatedCode_handler_model params lang impl s m Hparse Hm)
          as (s1 & Hfire & -> & Hframe). simpl. split.
        -- eapply bridge_frame_trans; [exact Hframe|].
           apply set_outputEditor_frame.
        -- intros Hlang. destruct (Hlang eq_refl m eq_refl) as [Hy Ho].
           rewrite fireDidChangeTextDocument_silent in Hfire
             by (right; by simpl).
           injection Hfire as <-.
           destruct_state s. by split.
      * unfold generatedCode_handler. munfold. rewrite Hparse. munfold.
        rewrite Hm. simpl. split; [apply bridge_frame_refl | done].
    + unfold generatedCode_handler. munfold. rewrite Hparse. simpl.
      split; [apply bridge_frame_refl | done].
  - unfold commentKeywordChanged_handler, setLanguageConfiguration. munfold.
    destruct_state s. split; [by repeat split | done].
Qed.

Lemma semanticHighlighting_handler_run (params : string)
    (entries : list (string * TokenClass)) (s : State) :
  JSON_parse_classifiers params = Some entries →
  semanticHighlighting_handler params s
    = match getRegEx entries with
      | Some table =>
          (Normal tt,
           set_tokensProviders
             (<["ov" := OvlTokenProvider table]> (tokensProviders s)) s)
      | None => (Normal tt, s)
      end.
Proof.
  intros Hparse. unfold semanticHighlighting_handler, createTokenizationSupport.
  munfold. rewrite Hparse. simpl.
  destruct (getRegEx entries); unfold setTokensProvider; by munfold.
Qed.

(** X6.  The token provider is replaced, not merged, and only by a table
    that could be built: after a first semantic-highlighting notification,
    a second one whose patterns all compile leaves the same state as that
    second one alone, a second one with a pattern that does not compile
    leaves the state of the first, and the providers of other languages
    are never touched. *)
Theorem semanticHighlighting_last_wins (p1 p2 : string)
    (e1 e2 : list (string * TokenClass)) (s : State) :
  JSON_parse_classifiers p1 = Some e1 →
  JSON_parse_classifiers p2 = Some e2 →
  (Forall compiles e2 →
     (semanticHighlighting_handler p1;; semanticHighlighting_handler p2) s
       = semanticHighlighting_handler p2 s)
  ∧ (¬ Forall compiles e2 →
     (semanticHighlighting_handler p1;; semanticHighlighting_handler p2) s
       = semanticHighlighting_handler p1 s)
  ∧ (∀ l, l ≠ "ov" →
       tokensProviders (snd (semanticHighlighting_handler p2 s)) !! l
         = tokensProviders s !! l).
Proof.
  intros H1 H2.
  assert (Hseq : (semanticHighlighting_handler p1;;
                  semanticHighlighting_handler p2) s
            = semanticHighlighting_handler p2
                (snd (semanticHighlighting_handler p1 s))).
  { munfold. rewrite (semanticHighlighting_handler_run p1 e1 s H1).
    by destruct (getRegEx e1). }
  rewrite Hseq.
  rewrite (semanticHighlighting_handler_run p2 e2 _ H2).
  rewrite (semanticHighlighting_handler_run p2 e2 s H2).
  rewrite (semanticHighlighting_handler_run p1 e1 s H1).
  split; [|split].
  - intros Hok. rewrite (getRegEx_compiledNonEmpty e2 Hok).
    destruct (getRegEx e1); destruct_state s;
      [by rewrite insert_insert_eq | done].
  - intros Hbad. rewrite (getRegEx_None e2 Hbad).
    by destruct (getRegEx e1).
  - intros l Hl. destruct (getRegEx e2); destruct_state s;
      [by rewrite lookup_insert_ne | done].
Qed.

(** X7.  The output editor shows the last generated code: after two
    generated-code notifications in a row the output editor is as after
    the second one alone, with or without a model in it, both complete,
    and the model keeps its URI.  When neither the language id the output
    model had nor the one the first notification gave it is ["yaml"] or
    ["ov"], the whole state is as after the second one alone. *)
Theorem generatedCode_last_wins (p1 p2 : string) (n1 n2 : ICodeNotification)
    (s : State) :
  JSON_parse_code p1 = Some n1 →
  JSON_parse_code p2 = Some n2 →
  fst ((generatedCode_handler p1;; generatedCode_handler p2) s) = Normal tt
  ∧ outputEditor (snd ((generatedCode_handler p1;; generatedCode_handler p2) s))
      = outputEditor (snd (generatedCode_handler p2 s))
  ∧ (uri <$> getModel (outputEditor (snd (generatedCode_handler p2 s))))
      = (uri <$> getModel (outputEditor s))
  ∧ ((∀ m, getModel (outputEditor s) = Some m →
           languageId m ≠ "yaml" ∧ languageId m ≠ "ov") →
     selectLanguage (toLowerCase (language n1)) ≠ "yaml" →
     selectLanguage (toLowerCase (language n1)) ≠ "ov" →
     (generatedCode_handler p1;; generatedCode_handler p2) s
       = generatedCode_handler p2 s).
Proof.
  destruct n1 as [lang1 impl1], n2 as [lang2 impl2]. intros H1 H2.
  destruct (getModel (outputEditor s)) as [m|] eqn:Hm.
  - destruct (generatedCode_handler_model p1 lang1 impl1 s m H1 Hm)
      as (s1 & Hfire1 & Hrun1 & _).
    destruct (generatedCode_handler_model p2 lang2 impl2 s m H2 Hm)
      as (s2 & Hfire2 & Hrun2 & _).
    pose proof (set_outputEditor_frame
      (mkEditor (Some (mkTextModel (uri m) impl1
                         (selectLanguage (toLowerCase lang1))))) s1)
      as (Hoe & _).
    destruct (generatedCode_handler_model p2 lang2 impl2 _ _ H2
                (f_equal getModel Hoe))
      as (s3 & Hfire3 & Hrun3 & _).
    assert (Hseq : (generatedCode_handler p1;; generatedCode_handler p2) s
              = generatedCode_handler p2
                  (set_outputEditor
                     (mkEditor (Some (mkTextModel (uri m) impl1
                        (selectLanguage (toLowerCase lang1))))) s1)).
    { munfold. by rewrite Hrun1. }
    rewrite Hseq, Hrun3, Hrun2. simpl.
    rewrite !(proj1 (set_outputEditor_frame _ _)). simpl.
    split; [done|]. split; [done|]. split; [done|].
    intros Hlang Hy Ho. destruct (Hlang m eq_refl) as [Hmy Hmo].
    rewrite fireDidChangeTextDocument_silent in Hfire1 by (right; by simpl).
    rewrite fireDidChangeTextDocument_silent in Hfire2 by (right; by simpl).
    rewrite fireDidChangeTextDocument_silent in Hfire3 by (right; by simpl).
    injection Hfire1 as <-. injection Hfire2 as <-. injection Hfire3 as <-.
    by destruct_state s.
  - assert (Hnone : ∀ p n, JSON_parse_code p = Some n →
                      generatedCode_handler p s = (Normal tt, s)).
    { intros p n Hp. unfold generatedCode_handler. munfold. rewrite Hp.
      munfold. by rewrite Hm. }
    assert (Hseq : (generatedCode_handler p1;; generatedCode_handler p2) s
              = generatedCode_handler p2 s).
    { munfold. by rewrite (Hnone p1 _ H1). }
    rewrite Hseq, (Hnone p2 _ H2). simpl. by rewrite Hm.
Qed.

End InboundHandlers.

Lemma inbound_malformed_payload_witness :
  @semanticHighlighting_handler fixtureHost badPayload page0
    = (Throw SyntaxError, page0)
  ∧ @generatedCode_handler fixtureHost badPayload page0
    = (Throw SyntaxError, page0).
Proof.
  split.
  - exact (proj1 (@inbound_malformed_payload fixtureHost badPayload page0) eq_refl).
  - exact (proj2 (@inbound_malformed_payload fixtureHost badPayload page0) eq_refl).
Defined.

Lemma inbound_handlers_frame_witness :
  bridge_frame page0
    (snd (@handler_of fixtureHost GeneratedCode codePayload page0))
  ∧ trace (snd (@handler_of fixtureHost GeneratedCode codePayload page0))
      = trace page0
  ∧ content (snd (@handler_of fixtureHost GeneratedCode codePayload page0))
      = content page0.
Proof.
  destruct (@inbound_handlers_frame fixtureHost GeneratedCode codePayload page0)
    as [Hframe Hquiet].
  split; [exact Hframe|]. apply Hquiet.
  intros _ m [= <-]. by split.
Defined.

Lemma semanticHighlighting_last_wins_witness :
  (@semanticHighlighting_handler fixtureHost2 classifiersPayload;;
   @semanticHighlighting_handler fixtureHost2 classifiersPayload2) page0
    = @semanticHighlighting_handler fixtureHost2 classifiersPayload2 page0
  ∧ (@semanticHighlighting_handler fixtureHost2 classifiersPayload;;
     @semanticHighlighting_handler fixtureHost2 invalidPatternPayload) page0
    = @semanticHighlighting_handler fixtureHost2 classifiersPayload page0.
Proof.
  split.
  - apply (proj1 (@semanticHighlighting_last_wins fixtureHost2
                    classifiersPayload classifiersPayload2 _ _ page0
                    eq_refl eq_refl)).
    repeat constructor; by intros _.
  - apply (proj1 (proj2 (@semanticHighlighting_last_wins fixtureHost2
                    classifiersPayload invalidPatternPayload _ _ page0
                    eq_refl eq_refl))).
    intros Hall. inversion Hall as [|e l He _]; subst.
    by specialize (He ltac:(done)).
Defined.

Lemma generatedCode_last_wins_witness :
  (@generatedCode_handler fixtureHost2 codePayload;;
   @generatedCode_handler fixtureHost2 codePayload2) page0
    = @generatedCode_handler fixtureHost2 codePayload2 page0.
Proof.
  apply (proj2 (proj2 (proj2 (@generatedCode_last_wins fixtureHost2 codePayload
                  codePayload2 _ _ page0 eq_refl eq_refl)))).
  - intros m [= <-]. by split.
  - by vm_compute.
  - by vm_compute.
Defined.

(** ** Select boxes at session start *)

Lemma firstMatch_Some (opts : list string) (stored : option string) (i0 i : Z) :
  firstMatch opts stored i0 = Some i →
  ∃ (n : nat) (v : string),
    i = i0 + Z.of_nat n ∧ opts !! n = Some v ∧ stored = Some v
    ∧ ∀ k : nat, (k < n)%nat → opts !! k ≠ Some v.
Proof.
  revert i0. induction opts as [|element rest IH]; intros i0 Hf; [done|].
  simpl in Hf. destruct (looseEq element stored) eqn:Heq.
  - injection Hf as <-. unfold looseEq in Heq.
    destruct stored as [v|]; [|done]. apply String.eqb_eq in Heq as ->.
    exists 0%nat, v. repeat split; [lia | lia].
  - destruct (IH _ Hf) as (n & v & -> & Hn & -> & Hbefore).
    exists (S n), v. repeat split; [lia | done |].
    intros [|k] Hk; simpl.
    + intros [= ->]. simpl in Heq. by rewrite String.eqb_refl in Heq.
    + apply Hbefore. lia.
Qed.

Lemma firstMatch_None (opts : list string) (stored : option string) (i0 : Z) :
  (∀ v, stored = Some v → v ∉ opts) → firstMatch opts stored i0 = None.
Proof.
  revert i0. induction opts as [|element rest IH]; intros i0 Hnot; [done|].
  simpl. destruct (looseEq element stored) eqn:Heq.
  - unfold looseEq in Heq. destruct stored as [v|]; [|done].
    apply String.eqb_eq in Heq as ->. destruct (Hnot v eq_refl). by left.
  - apply IH. intros v Hv Hin. apply (Hnot v Hv). by right.
Qed.

Lemma firstMatch_elem (opts : list string) (v : string) (i0 : Z) :
  v ∈ opts → is_Some (firstMatch opts (Some v) i0).
Proof.
  intros Hin. destruct (firstMatch opts (Some v) i0) eqn:Hf; [by eexists|].
  exfalso. revert i0 Hf. induction opts as [|element rest IH]; intros i0 Hf.
  - by apply elem_of_nil in Hin.
  - simpl in Hf. destruct (String.eqb_spec element v) as [->|Hne]; [done|].
    apply elem_of_cons in Hin as [->|Hin]; [done|]. by eapply IH.
Qed.

Lemma option_at_of_nat (box : HTMLSelectElement) (n : nat) :
  option_at box (Z.of_nat n) = options box !! n.
Proof.
  unfold option_at. destruct (Z.leb_spec 0 (Z.of_nat n)); [|lia].
  by rewrite Nat2Z.id.
Qed.

Lemma selectStored_option_at (box : HTMLSelectElement) (v : string) :
  v ∈ options box →
  option_at (selectStored box (Some v)) (selectedIndex (selectStored box (Some v)))
    = Some v.
Proof.
  intros Hin. unfold selectStored.
  destruct (firstMatch_elem (options box) v 0 Hin) as [i Hi]. rewrite Hi.
  destruct (firstMatch_Some _ _ _ _ Hi) as (n & v' & -> & Hn & [= <-] & _).
  simpl. rewrite Z.add_0_l. unfold option_at. simpl.
  destruct (Z.leb_spec 0 (Z.of_nat n)); [|lia]. by rewrite Nat2Z.id.
Qed.

Lemma option_at_elem (box : HTMLSelectElement) (i : Z) (v : string) :
  option_at box i = Some v → v ∈ options box.
Proof.
  unfold option_at. destruct (0 <=? i); [|done].
  intros Hv. by eapply list_elem_of_lookup_2.
Qed.

(** X8.  When the stored value is one of the options, the loop of
    [sendLanguageConfiguration] leaves the box showing it: the selected
    option has that value, it is the first option with that value, and
    the options and the [onchange] handler are as before. *)
Theorem selectStored_shows_stored (box : HTMLSelectElement) (v : string) :
  v ∈ options box →
  let box' := selectStored box (Some v) in
  option_at box' (selectedIndex box') = Some v
  ∧ options box' = options box
  ∧ onchange box' = onchange box
  ∧ 0 ≤ selectedIndex box' < Z.of_nat (length (options box))
  ∧ (∀ k, 0 ≤ k < selectedIndex box' → option_at box k ≠ Some v).
Proof.
  intros Hin box'. split; [by apply selectStored_option_at|].
  subst box'. unfold selectStored.
  destruct (firstMatch_elem (options box) v 0 Hin) as [i Hi]. rewrite Hi.
  destruct (firstMatch_Some _ _ _ _ Hi) as (n & v' & -> & Hn & [= <-] & Hbefore).
  simpl. split; [done|]. split; [done|]. split.
  - apply lookup_lt_Some in Hn. lia.
  - intros k Hk. replace k with (Z.of_nat (Z.to_nat k)) by lia.
    rewrite option_at_of_nat. apply Hbefore. lia.
Qed.

Lemma selectStored_shows_stored_witness :
  selectedIndex (selectStored (mkSelect ["en"; "de"; "de"] 0 None) (Some "de")) = 1
  ∧ option_at (selectStored (mkSelect ["en"; "de"; "de"] 0 None) (Some "de")) 1
      = Some "de".
Proof.
  pose proof (selectStored_shows_stored (mkSelect ["en"; "de"; "de"] 0 None) "de")
    as Hshow.
  split; [reflexivity|].
  apply Hshow. apply list_elem_of_In. simpl. tauto.
Defined.

(** X9.  When nothing is stored, or the stored value is not among the
    options, the loop leaves the box exactly as it was. *)
Theorem selectStored_unknown (box : HTMLSelectElement) (stored : option string) :
  (∀ v, stored = Some v → v ∉ options box) →
  selectStored box stored = box.
Proof.
  intros Hnot. unfold selectStored. by rewrite firstMatch_None.
Qed.

Lemma selectStored_unknown_witness :
  selectStored cultureBox0 (Some "fr") = cultureBox0
  ∧ selectStored cultureBox0 None = cultureBox0.
Proof.
  split; apply selectStored_unknown.
  - intros v [= <-] Hin. apply list_elem_of_In in Hin. simpl in Hin.
    destruct Hin as [?|[?|[]]]; discriminate.
  - intros v ?. discriminate.
Defined.

(** X10.  With a model in the primary editor, the option send completes;
    for each select box that exists it moves the selection to the stored
    value (as the loop does) and sends that stored value, whether or not
    the box has such an option; it writes nothing to the shared store. *)
Theorem option_send_uses_stored_values (s : State) (m : TextModel) :
  getModel (ovEditor s) = Some m →
  ∃ s', sendLanguageConfiguration s = (Normal tt, s')
    ∧ cultureSelectBox s'
        = (λ b, selectStored b (content s !! Culture)) <$> cultureSelectBox s
    ∧ languageSelectBox s'
        = (λ b, selectStored b (content s !! Language)) <$> languageSelectBox s
    ∧ content s' = content s
    ∧ trace s' = trace s
        ++ match cultureSelectBox s with
           | Some _ => [EvSendNotification (currentConnection s) CultureChanged
                          (CultureParams (content s !! Culture) (uri m))]
           | None => []
           end
        ++ match languageSelectBox s with
           | Some _ => [EvSendNotification (currentConnection s) LanguageChanged
                          (LanguageParams (content s !! Language) (uri m))]
           | None => []
           end.
Proof.
  intros Hm. unfold sendLanguageConfiguration, ContentManager_getValue,
    sendNotification. munfold. rewrite Hm.
  destruct s as [ov se oe ct [cb|] [lb|] cs cc dl tp lc tr]; simpl;
    (eexists; split; [reflexivity|]); simpl;
    rewrite <- ?app_assoc, ?app_nil_r; done.
Qed.

(** The page when the stored culture is not an option of the box. *)
Lemma option_send_uses_stored_values_witness :
  ∃ s', sendLanguageConfiguration
          (set_content (<[Culture := "fr"]> (content page0)) page0)
          = (Normal tt, s')
    ∧ cultureSelectBox s' = Some cultureBox0
    ∧ sentNotifications (trace s') =
        [(CultureChanged, CultureParams (Some "fr") "inmemory://model/1");
         (LanguageChanged, LanguageParams (Some "Node") "inmemory://model/1")].
Proof.
  destruct (option_send_uses_stored_values
              (set_content (<[Culture := "fr"]> (content page0)) page0)
              ovModel eq_refl)
    as (s' & Hrun & Hcb & _ & _ & Htr).
  exists s'. split; [exact Hrun|]. rewrite Hcb, Htr. split; by vm_compute.
Defined.

(** ** Select-box handlers *)

(** X11.  What the user picked is what the next session start sends and
    shows: after a culture change with value [v], the option send of a
    later session start sends culture [v] and leaves the culture box with
    an option of value [v] selected. *)
Theorem picked_culture_survives_reconnect (s : State) (box : HTMLSelectElement)
    (e : DomEvent) (v : string) (m : TextModel) :
  getModel (ovEditor s) = Some m →
  cultureSelectBox s = Some box →
  onchange box = Some OnCultureChange →
  option_at box (selectedIndex box) = Some v →
  ∃ s1 s2 box2,
    fireChange CultureSelectBox (Some e) s = (Normal tt, s1)
    ∧ sendLanguageConfiguration s1 = (Normal tt, s2)
    ∧ (CultureChanged, CultureParams (Some v) (uri m))
        ∈ sentNotifications (events_of sendLanguageConfiguration s1)
    ∧ cultureSelectBox s2 = Some box2
    ∧ option_at box2 (selectedIndex box2) = Some v.
Proof.
  intros Hm Hbox Hon Hv.
  rewrite (fireChange_culture s box (Some e) Hbox Hon).
  rewrite (cultureSelectBox_onchange_model s box e v m Hm Hv).
  unfold events_of, sendLanguageConfiguration, ContentManager_getValue,
    sendNotification. munfold.
  destruct s as [[om] se oe ct cb lb cs cc dl tp lc tr]. simpl in *.
  subst om cb.
  assert (∀ rest,
            drop (length ((tr ++ [EvSetValue Culture v]) ++
                          [EvSendNotification cc CultureChanged
                             (CultureParams (Some v) (uri m))]))
              ((((tr ++ [EvSetValue Culture v]) ++
                 [EvSendNotification cc CultureChanged
                    (CultureParams (Some v) (uri m))]) ++
                [EvSendNotification cc CultureChanged
                   (CultureParams (Some v) (uri m))]) ++ rest)
            = EvSendNotification cc CultureChanged
                (CultureParams (Some v) (uri m)) :: rest) as Hdrop.
  { intros rest. rewrite <- (app_assoc _ _ rest). by rewrite drop_app_length. }
  assert (option_at (selectStored box (Some v))
            (selectedIndex (selectStored box (Some v))) = Some v) as Hshown.
  { apply selectStored_option_at. by eapply option_at_elem. }
  destruct lb as [lb|];
    eexists _, _, (selectStored box (Some v));
    (split; [reflexivity|]); simpl; rewrite !lookup_insert_eq; simpl;
    (split; [reflexivity|]); (split; [|split; [reflexivity | exact Hshown]]).
  - rewrite Hdrop. simpl. by left.
  - specialize (Hdrop []). rewrite app_nil_r in Hdrop. rewrite Hdrop.
    simpl. by left.
Qed.

Lemma picked_culture_survives_reconnect_witness :
  ∃ s1 s2 box2,
    fireChange CultureSelectBox (Some tt) pagePicked = (Normal tt, s1)
    ∧ sendLanguageConfiguration s1 = (Normal tt, s2)
    ∧ cultureSelectBox s2 = Some box2
    ∧ option_at box2 (selectedIndex box2) = Some "de".
Proof.
  destruct (picked_culture_survives_reconnect pagePicked
              (mkSelect ["en"; "de"] 1 (Some OnCultureChange)) tt "de" ovModel
              eq_refl eq_refl eq_refl eq_refl)
    as (s1 & s2 & box2 & H1 & H2 & _ & Hb & Hsel).
  by exists s1, s2, box2.
Defined.

(** X12.  Change events that do nothing: a [null] event, a select box
    that is not in the page, and a box whose [onchange] has not been set
    all leave the state as it was, without a fault. *)
Theorem fireChange_does_nothing (id : SelectBoxId) (e : option DomEvent)
    (s : State) :
  (e = None
   ∨ getElementById id s = None
   ∨ ∃ b, getElementById id s = Some b ∧ onchange b = None) →
  fireChange id e s = (Normal tt, s).
Proof.
  intros Hcase. unfold fireChange. munfold.
  destruct (getElementById id s) as [b|] eqn:Hb; [|done].
  destruct Hcase as [-> | [? | (b' & [= <-] & Hon)]]; [|done|by rewrite Hon].
  by destruct (onchange b) as [[]|].
Qed.

Lemma fireChange_does_nothing_witness :
  fireChange CultureSelectBox None pagePicked = (Normal tt, pagePicked)
  ∧ fireChange LanguageSelectBox (Some tt) page0 = (Normal tt, page0).
Proof.
  split.
  - apply fireChange_does_nothing. by left.
  - apply fireChange_does_nothing. right. right. by exists languageBox0.
Defined.

(** X13.  A change event on a box with no selected option
    ([selectedIndex] negative or past the last option) throws a
    [TypeError] before anything is written or sent, even when the primary
    editor has a model. *)
Theorem onchange_without_selection (box : HTMLSelectElement) (e : DomEvent)
    (s : State) :
  (selectedIndex box < 0 ∨ Z.of_nat (length (options box)) ≤ selectedIndex box) →
  cultureSelectBox_onchange box (Some e) s = (Throw TypeError, s)
  ∧ languageSelectBox_onchange box (Some e) s = (Throw TypeError, s).
Proof.
  intros Hsel.
  assert (option_at box (selectedIndex box) = None) as Hnone.
  { unfold option_at. destruct (Z.leb_spec 0 (selectedIndex box)); [|done].
    apply lookup_ge_None. lia. }
  unfold cultureSelectBox_onchange, languageSelectBox_onchange. munfold.
  by rewrite Hnone.
Qed.

Lemma onchange_without_selection_witness :
  cultureSelectBox_onchange cultureBoxUnselected (Some tt) page0
    = (Throw TypeError, page0).
Proof.
  apply (onchange_without_selection cultureBoxUnselected tt page0).
  left. simpl. lia.
Defined.

(** X14.  [setClickHandler] never faults and sends nothing: it puts the
    culture handler on the culture box and the language handler on the
    language box (where they exist), keeping their options and selection;
    from then on a change event on a box runs that box's handler; setting
    the handlers again changes no box. *)
Theorem setClickHandler_installs (s : State) :
  ∃ s', setClickHandler s = (Normal tt, s')
    ∧ cultureSelectBox s' = with_onchange OnCultureChange <$> cultureSelectBox s
    ∧ languageSelectBox s' = with_onchange OnLanguageChange <$> languageSelectBox s
    ∧ content s' = content s
    ∧ sentNotifications (events_of setClickHandler s) = []
    ∧ (∀ e b, cultureSelectBox s = Some b →
         fireChange CultureSelectBox e s'
           = cultureSelectBox_onchange (with_onchange OnCultureChange b) e s')
    ∧ (∀ e b, languageSelectBox s = Some b →
         fireChange LanguageSelectBox e s'
           = languageSelectBox_onchange (with_onchange OnLanguageChange b) e s')
    ∧ cultureSelectBox (snd (setClickHandler s')) = cultureSelectBox s'
    ∧ languageSelectBox (snd (setClickHandler s')) = languageSelectBox s'.
Proof.
  unfold events_of, setClickHandler. munfold.
  destruct s as [ov se oe ct [cb|] [lb|] cs cc dl tp lc tr]; simpl;
    (eexists; split; [reflexivity|]); simpl;
    rewrite ?drop_app_length, ?drop_all;
    repeat split; try done;
    try (intros e b [= <-]; reflexivity).
  - rewrite <- app_assoc. by rewrite drop_app_length.
Qed.

Lemma setClickHandler_installs_witness :
  ∃ s', setClickHandler page0 = (Normal tt, s')
    ∧ fireChange CultureSelectBox (Some tt) s'
        = cultureSelectBox_onchange (with_onchange OnCultureChange cultureBox0)
            (Some tt) s'.
Proof.
  destruct (setClickHandler_installs page0)
    as (s' & Hrun & _ & _ & _ & _ & Hfire & _).
  exists s'. split; [exact Hrun|]. by apply Hfire.
Defined.

(** ** Document-change listener *)

(** X15.  In every case, fault or not, the listener leaves the stored
    culture and language, the three editors, the select boxes, the
    connections, the workspace listeners and the Monaco registries as they
    were: it can only send on the current connection and write [Schema]
    or [Code]. *)
Theorem docChange_listener_frame (s : State) (event : TextDocumentChangeEvent) :
  let s' := snd (onDidChangeTextDocument_listener event s) in
  content s' !! Culture = content s !! Culture
  ∧ content s' !! Language = content s !! Language
  ∧ ovEditor s' = ovEditor s
  ∧ schemaEditor s' = schemaEditor s
  ∧ outputEditor s' = outputEditor s
  ∧ cultureSelectBox s' = cultureSelectBox s
  ∧ languageSelectBox s' = languageSelectBox s
  ∧ connections s' = connections s
  ∧ currentConnection s' = currentConnection s
  ∧ docChangeListeners s' = docChangeListeners s
  ∧ tokensProviders s' = tokensProviders s
  ∧ languageConfigurations s' = languageConfigurations s.
Proof.
  unfold onDidChangeTextDocument_listener, sendSchemaChangedNotification,
    sendNotification, ContentManager_setValue. munfold.
  destruct s as [[[m|]] se oe ct cb lb cs cc dl tp lc tr];
    destruct (String.eqb (languageId (textDocument event)) "yaml");
    try destruct (String.eqb (languageId (textDocument event)) "ov");
    simpl; rewrite ?lookup_insert_ne by done; done.
Qed.

(** X16.  When the changed ["yaml"] document is the schema editor's own
    document, the schema text sent to the server and the text written
    under [Schema] are the same. *)
Theorem schema_edit_sends_what_it_stores (s : State) (m : TextModel)
    (event : TextDocumentChangeEvent) :
  getModel (ovEditor s) = Some m →
  getModel (schemaEditor s) = Some (textDocument event) →
  languageId (textDocument event) = "yaml" →
  events_of (onDidChangeTextDocument_listener event) s =
    [EvSendNotification (currentConnection s) SchemaChanged
       (SchemaParams (getText (textDocument event)) (uri m));
     EvSetValue Schema (getText (textDocument event))].
Proof.
  intros Hm Hschema Hy.
  unfold events_of, onDidChangeTextDocument_listener. rewrite Hy. simpl.
  change (sendSchemaChangedNotification;; ?k)
    with (bind (λ _, k) sendSchemaChangedNotification).
  unfold bind. rewrite (sendSchemaChangedNotification_model s m Hm).
  unfold ContentManager_setValue, modify, getValue. rewrite Hschema.
  destruct_state s. rewrite <- app_assoc. by rewrite drop_app_length.
Qed.

Lemma schema_edit_sends_what_it_stores_witness :
  events_of (onDidChangeTextDocument_listener yamlEdit) page0 =
    [EvSendNotification 0 SchemaChanged (SchemaParams "x: Number" "inmemory://model/1");
     EvSetValue Schema "x: Number"].
Proof.
  exact (schema_edit_sends_what_it_stores page0 ovModel yamlEdit
           eq_refl eq_refl eq_refl).
Defined.

Lemma repeatM_yaml (event : TextDocumentChangeEvent) (m : TextModel)
    (se oe : Editor) (cb lb : option HTMLSelectElement) (cs : list Connection)
    (cc dl : nat) (tp : gmap string TokensProvider)
    (lc : gmap string LanguageConfiguration) (n : nat) :
  languageId (textDocument event) = "yaml" →
  ∀ ct tr, ∃ ct',
    repeatM n (onDidChangeTextDocument_listener event)
      (mkState (mkEditor (Some m)) se oe ct cb lb cs cc dl tp lc tr)
    = (Normal tt,
       mkState (mkEditor (Some m)) se oe ct' cb lb cs cc dl tp lc
         (tr ++ concat (replicate n
            [EvSendNotification cc SchemaChanged (SchemaParams (getValue se) (uri m));
             EvSetValue Schema (getText (textDocument event))]))).
Proof.
  intros Hy. induction n as [|n IH]; intros ct tr.
  - exists ct. simpl. by rewrite app_nil_r.
  - destruct (IH (<[Schema := getText (textDocument event)]> ct)
                ((tr ++ [EvSendNotification cc SchemaChanged
                           (SchemaParams (getValue se) (uri m))])
                 ++ [EvSetValue Schema (getText (textDocument event))]))
      as [ct' Hrun].
    exists ct'.
    change (repeatM (S n) (onDidChangeTextDocument_listener event) ?s0)
      with (repeatM n (onDidChangeTextDocument_listener event)
              (snd (onDidChangeTextDocument_listener event s0))).
    replace (onDidChangeTextDocument_listener event
               (mkState (mkEditor (Some m)) se oe ct cb lb cs cc dl tp lc tr))
      with (@Normal unit tt,
            mkState (mkEditor (Some m)) se oe
              (<[Schema := getText (textDocument event)]> ct) cb lb cs cc dl tp lc
              ((tr ++ [EvSendNotification cc SchemaChanged
                         (SchemaParams (getValue se) (uri m))])
               ++ [EvSetValue Schema (getText (textDocument event))])).
    + simpl. rewrite Hrun. by rewrite <- !app_assoc.
    + unfold onDidChangeTextDocument_listener. by rewrite Hy.
Qed.

(** X17.  A ["yaml"] change runs every listener the workspace holds: with
    a model in the primary editor and [k] listeners registered, one change
    sends [k] schema-changed notifications and writes [Schema] [k] times
    (nothing at all when [k] is [0], before the first session). *)
Theorem docChange_runs_every_listener (s : State) (m : TextModel)
    (event : TextDocumentChangeEvent) :
  getModel (ovEditor s) = Some m →
  languageId (textDocument event) = "yaml" →
  fst (fireDidChangeTextDocument event s) = Normal tt
  ∧ events_of (fireDidChangeTextDocument event) s =
      concat (replicate (docChangeListeners s)
        [EvSendNotification (currentConnection s) SchemaChanged
           (SchemaParams (getValue (schemaEditor s)) (uri m));
         EvSetValue Schema (getText (textDocument event))]).
Proof.
  intros Hm Hy. unfold events_of, fireDidChangeTextDocument. munfold.
  destruct s as [[om] se oe ct cb lb cs cc dl tp lc tr]. simpl in *. subst om.
  destruct (repeatM_yaml event m se oe cb lb cs cc dl tp lc dl Hy ct tr)
    as [ct' ->].
  simpl. split; [done|]. by rewrite drop_app_length.
Qed.

Lemma docChange_runs_every_listener_witness :
  sentNotifications (events_of (fireDidChangeTextDocument yamlEdit) pageThreeListeners)
    = [(SchemaChanged, SchemaParams "x: Number" "inmemory://model/1");
       (SchemaChanged, SchemaParams "x: Number" "inmemory://model/1");
       (SchemaChanged, SchemaParams "x: Number" "inmemory://model/1")].
Proof.
  rewrite (proj2 (docChange_runs_every_listener pageThreeListeners ovModel
                    yamlEdit eq_refl eq_refl)).
  reflexivity.
Defined.

(** X21.  A listener that throws does not stop the event: a ["yaml"]
    change while the primary editor has no model makes every listener
    fault in the schema send, the workspace swallows each fault, and the
    event completes with the state as it was, so nothing is sent and
    nothing is stored, however many listeners there are. *)
Theorem docChange_event_swallows_faults (s : State)
    (event : TextDocumentChangeEvent) :
  getModel (ovEditor s) = None →
  languageId (textDocument event) = "yaml" →
  fst (onDidChangeTextDocument_listener event s) = Throw TypeError
  ∧ fireDidChangeTextDocument event s = (Normal tt, s).
Proof.
  intros Hm Hy.
  assert (Hthrow : onDidChangeTextDocument_listener event s
                     = (Throw TypeError, s)).
  { unfold onDidChangeTextDocument_listener. rewrite Hy. simpl.
    unfold sendSchemaChangedNotification. munfold.
    destruct s as [[om] se oe ct cb lb cs cc dl tp lc tr]. simpl in *.
    by subst om. }
  split; [by rewrite Hthrow|].
  unfold fireDidChangeTextDocument. munfold.
  induction (docChangeListeners s) as [|n IH]; [done|].
  change (repeatM (S n) (onDidChangeTextDocument_listener event) s)
    with (repeatM n (onDidChangeTextDocument_listener event)
            (snd (onDidChangeTextDocument_listener event s))).
  by rewrite Hthrow.
Qed.

Lemma docChange_event_swallows_faults_witness :
  fst (onDidChangeTextDocument_listener yamlEdit pageNoModel) = Throw TypeError
  ∧ fireDidChangeTextDocument yamlEdit pageNoModel = (Normal tt, pageNoModel).
Proof.
  exact (docChange_event_swallows_faults pageNoModel yamlEdit eq_refl eq_refl).
Defined.

Section GeneratedCodeEvent.
Context `{Host}.

(** X22.  Setting the text of the output model is itself a document
    change: when the output model's language id is ["yaml"] and the
    primary editor has a model, a generated-code notification makes every
    document-change listener send the schema and store the generated code
    under [Schema], and nothing else is sent or stored. *)
Theorem generatedCode_reaches_listeners (params lang impl : string)
    (s : State) (m om : TextModel) :
  JSON_parse_code params = Some (mkCodeNotification lang impl) →
  getModel (outputEditor s) = Some m →
  languageId m = "yaml" →
  getModel (ovEditor s) = Some om →
  events_of (generatedCode_handler params) s =
    concat (replicate (docChangeListeners s)
      [EvSendNotification (currentConnection s) SchemaChanged
         (SchemaParams (getValue (schemaEditor s)) (uri om));
       EvSetValue Schema impl]).
Proof.
  intros Hparse Hm Hy Hom.
  destruct (generatedCode_handler_model params lang impl s m Hparse Hm)
    as (s1 & Hfire & Hrun & _).
  unfold events_of. rewrite Hrun. cbn [snd].
  rewrite (proj1 (proj2 (proj2 (set_outputEditor_frame _ s1)))).
  unfold fireDidChangeTextDocument in Hfire. munfold.
  destruct s as [[ovm] se oe ct cb lb cs cc dl tp lc tr]. simpl in *.
  subst ovm.
  destruct (repeatM_yaml
              (mkChangeEvent (mkTextModel (uri m) impl (languageId m))) om se
              (mkEditor (Some (mkTextModel (uri m) impl (languageId m))))
              cb lb cs cc dl tp lc dl Hy ct tr) as [ct' Hrep].
  rewrite Hrep in Hfire. injection Hfire as <-. simpl.
  by rewrite drop_app_length.
Qed.

End GeneratedCodeEvent.

Lemma generatedCode_reaches_listeners_witness :
  events_of (@generatedCode_handler fixtureHost codePayload) pageYamlOutput =
    [EvSendNotification 0 SchemaChanged
       (SchemaParams "x: Number" "inmemory://model/1");
     EvSetValue Schema "class X{}"].
Proof.
  exact (@generatedCode_reaches_listeners fixtureHost codePayload "Java"
           "class X{}" pageYamlOutput
           (mkTextModel "inmemory://model/3" "" "yaml") ovModel
           eq_refl eq_refl eq_refl eq_refl).
Defined.

(** ** Sessions *)

Lemma close_connection_idem (c : Connection) :
  close_connection (close_connection c) = close_connection c.
Proof. done. Qed.

Section Sessions.
Context `{Host}.

(** X18.  With a model in the primary editor, a socket opening gives a
    session on a new connection: its id is the number of connections so
    far, it becomes the current connection, it carries listeners for the
    three inbound notifications and no others, earlier connections are as
    they were, the workspace gains one document-change listener, the
    shared store is not written, and from then on a notification of any
    method arriving on it is handled by that method's handler. *)
Theorem onConnection_opens_session (s : State) (m : TextModel) :
  getModel (ovEditor s) = Some m →
  ∃ s', onConnection s = (Normal (length (connections s)), s')
    ∧ currentConnection s' = length (connections s)
    ∧ connections s' = connections s ++
        [mkConnection [SemanticHighlighting; GeneratedCode; CommentKeywordChanged]
           false]
    ∧ docChangeListeners s' = S (docChangeListeners s)
    ∧ content s' = content s
    ∧ (∀ method params,
         deliver (length (connections s)) method params s'
           = handler_of method params s').
Proof.
  intros Hm.
  assert (∀ s', connections s' = connections s ++
            [mkConnection [SemanticHighlighting; GeneratedCode; CommentKeywordChanged]
               false] →
          ∀ method params,
            deliver (length (connections s)) method params s'
              = handler_of method params s') as Hdeliver.
  { intros s' Hc method params. unfold deliver. munfold. rewrite Hc.
    rewrite lookup_last. simpl. by destruct method. }
  revert Hdeliver.
  unfold onConnection, newConnection, connectionProvider_get,
    sendSchemaChangedNotification, sendLanguageConfiguration,
    addSemanticHighlightingNotificationListener,
    addGeneratedCodeNotificationListener, addDidChangeTextDocumentListener,
    addAliasesChangesListener, setClickHandler, onNotification,
    sendNotification, ContentManager_getValue.
  munfold.
  destruct s as [[om] se oe ct [cb|] [lb|] cs cc dl tp lc tr]; simpl in *;
    subst om; simpl; rewrite ?alter_last; simpl; intros Hdeliver;
    (eexists; split; [reflexivity|]); simpl;
    (split; [done|]); (split; [done|]); (split; [done|]); (split; [done|]);
    by apply Hdeliver.
Qed.

(** X19.  With no model in the primary editor, a socket opening still
    allocates the connection and makes it current, but the session start
    faults at its first send: nothing is sent, no listener is registered
    on the connection or the workspace, no select-box handler is set, and
    every notification arriving on the connection is ignored. *)
Theorem onConnection_without_model (s : State) :
  getModel (ovEditor s) = None →
  ∃ s', onConnection s = (Throw TypeError, s')
    ∧ currentConnection s' = length (connections s)
    ∧ connections s' = connections s ++ [mkConnection [] false]
    ∧ trace s' = trace s
    ∧ docChangeListeners s' = docChangeListeners s
    ∧ cultureSelectBox s' = cultureSelectBox s
    ∧ languageSelectBox s' = languageSelectBox s
    ∧ (∀ method params,
         deliver (length (connections s)) method params s' = (Normal tt, s')).
Proof.
  intros Hm.
  assert (∀ s', connections s' = connections s ++ [mkConnection [] false] →
          ∀ method params,
            deliver (length (connections s)) method params s' = (Normal tt, s'))
    as Hdeliver.
  { intros s' Hc method params. unfold deliver. munfold. rewrite Hc.
    by rewrite lookup_last. }
  revert Hdeliver.
  unfold onConnection, newConnection, connectionProvider_get,
    sendSchemaChangedNotification. munfold.
  destruct s as [[om] se oe ct cb lb cs cc dl tp lc tr]; simpl in *.
  subst om. simpl. intros Hdeliver.
  eexists. split; [reflexivity|]. simpl. repeat split; try done.
  by apply Hdeliver.
Qed.

(** X20.  Once a connection has closed, no notification arriving on it is
    processed, from any state; closing touches no other connection, sends
    nothing, removes no workspace listener, leaves the current connection
    pointing where it did, and closing again changes nothing. *)
Theorem closed_connection_is_silent (c : nat) (s : State) :
  ∃ s', connection_onClose c s = (Normal tt, s')
    ∧ (∀ method params, deliver c method params s' = (Normal tt, s'))
    ∧ (∀ c', c' ≠ c → connections s' !! c' = connections s !! c')
    ∧ connection_onClose c s' = (Normal tt, s')
    ∧ trace s' = trace s
    ∧ currentConnection s' = currentConnection s
    ∧ docChangeListeners s' = docChangeListeners s.
Proof.
  unfold connection_onClose, modify. eexists. split; [reflexivity|].
  destruct s as [ov se oe ct cb lb cs cc dl tp lc tr]. simpl.
  split.
  { intros method params. unfold deliver. munfold. simpl.
    rewrite list_lookup_alter, decide_True by done. by destruct (cs !! c). }
  split.
  { intros c' Hc'. rewrite list_lookup_alter_ne; [done|]. intros ->. by apply Hc'. }
  split; [|done].
  do 2 f_equal. rewrite list_alter_alter_eq.
  apply list_alter_ext; [|done]. intros x _. apply close_connection_idem.
Qed.

End Sessions.

Lemma onConnection_opens_session_witness :
  ∃ s', onConnection page0 = (Normal 0%nat, s')
    ∧ connections s' =
        [mkConnection [SemanticHighlighting; GeneratedCode; CommentKeywordChanged]
           false]
    ∧ docChangeListeners s' = 1%nat.
Proof.
  destruct (@onConnection_opens_session fixtureHost page0 ovModel eq_refl)
    as (s' & Hrun & _ & Hc & Hdl & _).
  exists s'. split; [exact Hrun|]. split; [exact Hc | exact Hdl].
Defined.

Lemma onConnection_without_model_witness :
  ∃ s', onConnection pageNoModel = (Throw TypeError, s')
    ∧ trace s' = []
    ∧ docChangeListeners s' = 1%nat.
Proof.
  destruct (@onConnection_without_model fixtureHost pageNoModel eq_refl)
    as (s' & Hrun & _ & _ & Htr & Hdl & _).
  exists s'. split; [exact Hrun|]. split; [exact Htr | exact Hdl].
Defined.
